(** * Authentication core of the Epic Stack (drizzle port)

    A shallow embedding of
      - the relational schema ([src/drizzle.config.ts], its tables and
        relations, and the generated migration [src/unnamed/part_000]),
      - [src/app/utils/auth.server.ts],
      - [src/app/routes/settings+/profile.change-email.server.tsx],
      - the note image resource route ([src/unnamed/part_001]) and the
        reset-password verification handler ([src/unnamed/part_002]),
    together with the properties the specification states about them and
    further properties read off the code.

    Conventions.
      - An instant ([Date]) is its Unix time in milliseconds, a [Z].  Every
        [Date.now()] and [new Date()] is a reading of the clock of its own:
        the readings are arguments of an operation.
      - A table is the list of its rows in insertion (rowid) order, and a row
        is what a query returns for it: its timestamps are Dates as a
        timestamp column gives them back, whole seconds.
      - An [async] function is a computation [M A]: it reads and writes the
        store and either returns a value or throws.
      - [createId()] is random: the identifiers it yields for the rows an
        operation inserts are arguments of the operation.
      - Collaborators that live outside the modelled files (bcrypt, the cookie
        session storages, [downloadFile], [safeRedirect], ...) and the
        platform's [String.prototype.toLowerCase] are section variables. *)

From Stdlib Require Import String Ascii List ZArith Bool Lia DecimalString.
Import ListNotations.
Local Open Scope Z_scope.
Local Open Scope string_scope.
Local Open Scope list_scope.

Set Implicit Arguments.

(* ===================================================================== *)
(** ** JavaScript values *)
(* ===================================================================== *)

Module Js.

(** [!x] for a value that is a string or [undefined]/[null]: the empty
    string is falsy as well. *)
Definition truthy (x : option string) : bool :=
  match x with
  | None => false
  | Some s => negb (s =? "")
  end.

(** [a ?? b] *)
Definition nullish {A} (a : option A) (b : A) : A :=
  match a with Some x => x | None => b end.

End Js.

(* ===================================================================== *)
(** ** The schema *)
(* ===================================================================== *)

Module Schema.

(** Identifiers are opaque strings, instants are milliseconds. *)
Abbreviation Id := string (only parsing).
Abbreviation Date := Z (only parsing).

Record User := mkUser {
  user_id : Id;
  user_email : string;
  user_username : string;
  user_name : option string;
  user_createdAt : Date;
  user_updatedAt : Date }.

Record Note := mkNote {
  note_id : Id;
  note_title : string;
  note_content : string;
  note_createdAt : Date;
  note_updatedAt : Date;
  note_ownerId : Id }.

Record NoteImage := mkNoteImage {
  noteImage_id : Id;
  noteImage_altText : option string;
  noteImage_contentType : string;
  noteImage_blob : string;
  noteImage_createdAt : Date;
  noteImage_updatedAt : Date;
  noteImage_noteId : Id }.

Record UserImage := mkUserImage {
  userImage_id : Id;
  userImage_altText : option string;
  userImage_contentType : string;
  userImage_blob : string;
  userImage_createdAt : Date;
  userImage_updatedAt : Date;
  userImage_userId : Id }.

Record Password := mkPassword {
  password_hash : string;
  password_userId : Id }.

Record Session := mkSession {
  session_id : Id;
  session_expirationDate : Date;
  session_createdAt : Date;
  session_updatedAt : Date;
  session_userId : Id }.

Record Role := mkRole {
  role_id : Id;
  role_name : string;
  role_description : string;
  role_createdAt : Date;
  role_updatedAt : Date }.

Record Connection := mkConnection {
  connection_id : Id;
  connection_providerName : string;
  connection_providerId : string;
  connection_createdAt : Date;
  connection_updatedAt : Date;
  connection_userId : Id }.

Record RoleUser := mkRoleUser {
  roleUser_roleId : Id;
  roleUser_userId : Id }.

(** The store: the tables the modelled operations read or write.  The
    [permission], [permission_role] and [verification] tables have no
    foreign key to [user] and no modelled operation touches them. *)
Record DB := mkDB {
  users : list User;
  notes : list Note;
  noteImages : list NoteImage;
  userImages : list UserImage;
  passwords : list Password;
  sessions : list Session;
  roles : list Role;
  connections : list Connection;
  rolesToUsers : list RoleUser }.

Definition set_users (f : list User -> list User) (d : DB) : DB :=
  mkDB (f (users d)) (notes d) (noteImages d) (userImages d) (passwords d)
       (sessions d) (roles d) (connections d) (rolesToUsers d).
Definition set_notes (f : list Note -> list Note) (d : DB) : DB :=
  mkDB (users d) (f (notes d)) (noteImages d) (userImages d) (passwords d)
       (sessions d) (roles d) (connections d) (rolesToUsers d).
Definition set_noteImages (f : list NoteImage -> list NoteImage) (d : DB) : DB :=
  mkDB (users d) (notes d) (f (noteImages d)) (userImages d) (passwords d)
       (sessions d) (roles d) (connections d) (rolesToUsers d).
Definition set_userImages (f : list UserImage -> list UserImage) (d : DB) : DB :=
  mkDB (users d) (notes d) (noteImages d) (f (userImages d)) (passwords d)
       (sessions d) (roles d) (connections d) (rolesToUsers d).
Definition set_passwords (f : list Password -> list Password) (d : DB) : DB :=
  mkDB (users d) (notes d) (noteImages d) (userImages d) (f (passwords d))
       (sessions d) (roles d) (connections d) (rolesToUsers d).
Definition set_sessions (f : list Session -> list Session) (d : DB) : DB :=
  mkDB (users d) (notes d) (noteImages d) (userImages d) (passwords d)
       (f (sessions d)) (roles d) (connections d) (rolesToUsers d).
Definition set_connections (f : list Connection -> list Connection) (d : DB) : DB :=
  mkDB (users d) (notes d) (noteImages d) (userImages d) (passwords d)
       (sessions d) (roles d) (f (connections d)) (rolesToUsers d).
Definition set_rolesToUsers (f : list RoleUser -> list RoleUser) (d : DB) : DB :=
  mkDB (users d) (notes d) (noteImages d) (userImages d) (passwords d)
       (sessions d) (roles d) (connections d) (f (rolesToUsers d)).

Definition empty : DB := mkDB [] [] [] [] [] [] [] [] [].

(** What a foreign key does when the row it references is deleted. *)
Inductive FkAction := Cascade | NoAction.

(** [.references(() => users.id, { onDelete: 'cascade', ... })], one
    definition per foreign key of the schema, as the migration has them:
    [FOREIGN KEY (..) REFERENCES .. ON UPDATE cascade ON DELETE cascade]. *)
Definition note_owner_onDelete : FkAction := Cascade.
Definition noteImage_note_onDelete : FkAction := Cascade.
Definition userImage_user_onDelete : FkAction := Cascade.
Definition password_user_onDelete : FkAction := Cascade.
Definition session_user_onDelete : FkAction := Cascade.
Definition connection_user_onDelete : FkAction := Cascade.
Definition roleUser_user_onDelete : FkAction := Cascade.

(** [integer(name, { mode: 'timestamp' })]: the column holds whole
    seconds.  Writing a Date floors its milliseconds to seconds, reading
    turns the seconds back into a Date. *)
Definition timestamp_toDriver (d : Date) : Z := d / 1000.
Definition timestamp_fromDriver (seconds : Z) : Date := seconds * 1000.

(** A Date as a timestamp column gives it back. *)
Definition stored_timestamp (d : Date) : Date :=
  timestamp_fromDriver (timestamp_toDriver d).

(** The rows as the store keeps them. *)
Definition stored_user (u : User) : User :=
  mkUser (user_id u) (user_email u) (user_username u) (user_name u)
         (stored_timestamp (user_createdAt u)) (stored_timestamp (user_updatedAt u)).
Definition stored_session (s : Session) : Session :=
  mkSession (session_id s) (stored_timestamp (session_expirationDate s))
            (stored_timestamp (session_createdAt s))
            (stored_timestamp (session_updatedAt s)) (session_userId s).
Definition stored_connection (c : Connection) : Connection :=
  mkConnection (connection_id c) (connection_providerName c)
               (connection_providerId c)
               (stored_timestamp (connection_createdAt c))
               (stored_timestamp (connection_updatedAt c)) (connection_userId c).
Definition stored_userImage (i : UserImage) : UserImage :=
  mkUserImage (userImage_id i) (userImage_altText i) (userImage_contentType i)
              (userImage_blob i)
              (stored_timestamp (userImage_createdAt i))
              (stored_timestamp (userImage_updatedAt i)) (userImage_userId i).

(** A relation declared with [relations(table, ..)]: its name, the join
    columns of its own [{ fields, references }] when it has them, and those
    of the relation declared the other way round when that one is a
    [one(..)] with [{ fields, references }]. *)
Record Relation (Source Target : Type) := mkRelation {
  relation_name : string;
  relation_config : option ((Source -> Id) * (Target -> Id));
  relation_reverse_config : option ((Target -> Id) * (Source -> Id)) }.

(** [sessionsRelations]: [user: one(users)], with no fields and no
    references; the other way round [usersRelations] has
    [sessions: many(sessions)]. *)
Definition sessions_user : Relation Session User :=
  mkRelation "sessions.user" None None.

(** [usersRelations]: [password: one(passwords)], with no fields and no
    references; the other way round [passwordsRelations] has
    [user: one(users)], with none either. *)
Definition users_password : Relation User Password :=
  mkRelation "users.password" None None.

End Schema.
Import Schema.

(* ===================================================================== *)
(** ** Computations over the store *)
(* ===================================================================== *)

(** An HTTP response as far as the modelled code builds one. *)
Record Response := mkResponse {
  resp_status : nat;
  resp_location : option string;
  resp_headers : list (string * string);
  resp_body : string }.

(** What a [throw] (a rejected promise) carries. *)
Inductive Thrown :=
| InvariantError (message : string)     (* invariant(cond, message) failed *)
| ConstraintError (constraint : string) (* a statement rejected by the schema *)
| StorageError                          (* the store could not run a statement *)
| ThrownResponse (r : Response)         (* throw redirect(...) *)
| CollaboratorError (message : string)  (* raised by an external collaborator *)
| RelationError (relation : string).    (* Error: There is not enough
                                           information to infer relation .. *)

Inductive Outcome (A : Type) :=
| Return (a : A)
| Throw (e : Thrown).
Arguments Throw {A} e.

(** A computation over a state [S]; [M] is the one over the store. *)
Definition ST (S A : Type) := S -> Outcome A * S.
Definition M := ST DB.

Definition ret {S A} (a : A) : ST S A := fun s => (Return a, s).
Definition throw {S A} (e : Thrown) : ST S A := fun s => (Throw e, s).
Definition bind {S A B} (m : ST S A) (k : A -> ST S B) : ST S B :=
  fun s =>
    match m s with
    | (Return a, s') => k a s'
    | (Throw e, s') => (Throw e, s')
    end.
Definition gets {S A} (f : S -> A) : ST S A := fun s => (Return (f s), s).
Definition modify {S} (f : S -> S) : ST S unit := fun s => (Return tt, f s).

Declare Scope m_scope.
Delimit Scope m_scope with m.
Notation "x <- m ;; k" := (bind m (fun x => k))
  (at level 61, m at next level, right associativity) : m_scope.
Notation "m ;;; k" := (bind m (fun _ => k))
  (at level 61, right associativity) : m_scope.
Local Open Scope m_scope.

(** [invariant(value, message)]: throws unless the value is there, and
    narrows it. *)
Definition invariant {S A} (v : option A) (message : string) : ST S A :=
  match v with
  | Some a => ret a
  | None => throw (InvariantError message)
  end.

(** [db.transaction(async (tx) => body)]: the writes of [body] are kept when
    it returns and undone when it throws; the error is rethrown. *)
Definition transaction {A} (body : M A) : M A :=
  fun db =>
    match body db with
    | (Return a, db') => (Return a, db')
    | (Throw e, _) => (Throw e, db)
    end.

(** [promise.catch(() => {})] *)
Definition catch_ignore {A} (m : M A) : M unit :=
  fun db =>
    match m db with
    | (Return _, db') => (Return tt, db')
    | (Throw _, db') => (Return tt, db')
    end.

(* ===================================================================== *)
(** ** Queries and statements *)
(* ===================================================================== *)

Module Query.

(** [findFirst({ where })]: the first row, in table order, that satisfies
    the condition. *)
Definition findFirst {Row} (where_ : Row -> bool) (rows : list Row) : option Row :=
  find where_ rows.

Definition has_user (uid : Id) (db : DB) : bool :=
  existsb (fun u => user_id u =? uid) (users db).

Definition has_role (rid : Id) (db : DB) : bool :=
  existsb (fun r => role_id r =? rid) (roles db).

(** The join columns of a relation in a relational query
    ([findFirst({ with: .. })]): its own, else those of the reverse
    relation; with neither the query builder throws before any row is
    read. *)
Definition normalizeRelation {Source Target} (r : Relation Source Target)
  : Thrown + ((Source -> Id) * (Target -> Id)) :=
  match relation_config r with
  | Some columns => inr columns
  | None =>
      match relation_reverse_config r with
      | Some (fields, references) => inr (references, fields)
      | None => inl (RelationError (relation_name r))
      end
  end.

(** [tx.insert(users).values(row).returning(..)]: the two [.unique()]
    columns and the primary key reject a duplicate, the index created last
    being tried first; the timestamps are kept in whole seconds. *)
Definition insert_users (row : User) : M (list User) :=
  fun db =>
    if existsb (fun u => user_username u =? user_username row) (users db) then
      (Throw (ConstraintError "UNIQUE constraint failed: user.username"), db)
    else if existsb (fun u => user_email u =? user_email row) (users db) then
      (Throw (ConstraintError "UNIQUE constraint failed: user.email"), db)
    else if existsb (fun u => user_id u =? user_id row) (users db) then
      (Throw (ConstraintError "UNIQUE constraint failed: user.id"), db)
    else (Return [stored_user row],
          set_users (fun t => t ++ [stored_user row]) db).

Definition fk_failed : Thrown := ConstraintError "FOREIGN KEY constraint failed".

(** [tx.insert(passwords).values(row)]: no key of its own, one foreign key. *)
Definition insert_passwords (row : Password) : M unit :=
  fun db =>
    if has_user (password_userId row) db then
      (Return tt, set_passwords (fun t => t ++ [row]) db)
    else (Throw fk_failed, db).

Definition insert_rolesToUsers (row : RoleUser) : M unit :=
  fun db =>
    if (has_role (roleUser_roleId row) db && has_user (roleUser_userId row) db)%bool then
      (Return tt, set_rolesToUsers (fun t => t ++ [row]) db)
    else (Throw fk_failed, db).

(** [tx.insert(sessions).values(row).returning(..)]: what is stored, and
    returned, has its three timestamps in whole seconds. *)
Definition insert_sessions (row : Session) : M (list Session) :=
  fun db =>
    if existsb (fun s => session_id s =? session_id row) (sessions db) then
      (Throw (ConstraintError "UNIQUE constraint failed: session.id"), db)
    else if has_user (session_userId row) db then
      (Return [stored_session row],
       set_sessions (fun t => t ++ [stored_session row]) db)
    else (Throw fk_failed, db).

Definition insert_connections (row : Connection) : M unit :=
  fun db =>
    if existsb (fun c =>
         (connection_providerName c =? connection_providerName row)
         && (connection_providerId c =? connection_providerId row))%bool
       (connections db) then
      (Throw (ConstraintError
         "UNIQUE constraint failed: connection.provider_name, connection.provider_id"), db)
    else if existsb (fun c => connection_id c =? connection_id row) (connections db) then
      (Throw (ConstraintError "UNIQUE constraint failed: connection.id"), db)
    else if has_user (connection_userId row) db then
      (Return tt, set_connections (fun t => t ++ [stored_connection row]) db)
    else (Throw fk_failed, db).

Definition insert_userImages (row : UserImage) : M unit :=
  fun db =>
    if existsb (fun i => userImage_id i =? userImage_id row) (userImages db) then
      (Throw (ConstraintError "UNIQUE constraint failed: user_image.id"), db)
    else if has_user (userImage_userId row) db then
      (Return tt, set_userImages (fun t => t ++ [stored_userImage row]) db)
    else (Throw fk_failed, db).

(** [tx.update(passwords).set(values)] with no [.where(..)]: every row of
    the table gets the new values. *)
Definition update_passwords_set (values : Password) : M unit :=
  fun db =>
    match passwords db with
    | [] => (Return tt, db)
    | _ :: _ =>
        if has_user (password_userId values) db then
          (Return tt, set_passwords (map (fun _ => values)) db)
        else (Throw fk_failed, db)
    end.

(** [db.delete(sessions).where(eq(sessions.id, sessionId))].  The statement
    runs against the live store and may be refused by it ([fault]); nothing
    references a session, so no row of another table follows. *)
Definition delete_sessions_where (fault : bool) (where_ : Session -> bool) : M unit :=
  fun db =>
    if fault then (Throw StorageError, db)
    else (Return tt, set_sessions (filter (fun s => negb (where_ s))) db).

(** One foreign key at a [DELETE] of referenced rows: the referencing rows
    go with them ([Cascade]) or make the statement fail ([NoAction]).  The
    result is the rows removed and the rows kept. *)
Definition on_delete {Row} (action : FkAction) (refers : Row -> bool)
    (rows : list Row) : option (list Row * list Row) :=
  match action with
  | Cascade => Some (partition refers rows)
  | NoAction => if existsb refers rows then None else Some ([], rows)
  end.

(** [db.delete(users).where(..)] under the foreign keys of the schema: six
    tables reference [user], and [note_image] references [note]. *)
Definition delete_users_where (where_ : User -> bool) : M unit :=
  fun db =>
    let (gone_users, kept_users) := partition where_ (users db) in
    let gone id := existsb (fun u => user_id u =? id) gone_users in
    match
      on_delete note_owner_onDelete (fun r => gone (note_ownerId r)) (notes db),
      on_delete userImage_user_onDelete (fun r => gone (userImage_userId r)) (userImages db),
      on_delete password_user_onDelete (fun r => gone (password_userId r)) (passwords db),
      on_delete session_user_onDelete (fun r => gone (session_userId r)) (sessions db),
      on_delete connection_user_onDelete (fun r => gone (connection_userId r)) (connections db),
      on_delete roleUser_user_onDelete (fun r => gone (roleUser_userId r)) (rolesToUsers db)
    with
    | Some (gone_notes, kept_notes), Some (_, kept_userImages),
      Some (_, kept_passwords), Some (_, kept_sessions),
      Some (_, kept_connections), Some (_, kept_rolesToUsers) =>
        match
          on_delete noteImage_note_onDelete
            (fun r => existsb (fun n => note_id n =? noteImage_noteId r) gone_notes)
            (noteImages db)
        with
        | Some (_, kept_noteImages) =>
            (Return tt,
             mkDB kept_users kept_notes kept_noteImages kept_userImages
                  kept_passwords kept_sessions (roles db) kept_connections
                  kept_rolesToUsers)
        | None => (Throw fk_failed, db)
        end
    | _, _, _, _, _, _ => (Throw fk_failed, db)
    end.

(** A user row with [{ email }] set. *)
Definition set_user_email (email : string) (u : User) : User :=
  mkUser (user_id u) email (user_username u) (user_name u)
         (user_createdAt u) (user_updatedAt u).

(** [db.update(users).set({ email }).where(..).returning(..)]: the rows that
    satisfy the condition get the new email; the statement fails when one of
    them then shares its email with another row ([user_email_unique]). *)
Definition update_users_set_email (email : string) (where_ : User -> bool)
  : M (list User) :=
  fun db =>
    let updated :=
      map (fun u => if where_ u then set_user_email email u else u) (users db) in
    let clash :=
      (existsb where_ (users db)
       && Nat.ltb 1 (length (filter (fun u => user_email u =? email) updated)))%bool in
    if clash then
      (Throw (ConstraintError "UNIQUE constraint failed: user.email"), db)
    else
      (Return (map (set_user_email email) (filter where_ (users db))),
       set_users (fun _ => updated) db).

End Query.
Import Query.


(* ===================================================================== *)
(** ** HTTP values *)
(* ===================================================================== *)

Definition Headers := list (string * string).

Record ResponseInit := mkInit {
  init_status : option nat;
  init_headers : option Headers }.

(** [redirect(url, init)] of [@remix-run/node]: the status of [init], 302
    when it has none, its headers, and the Location. *)
Definition redirect (url : string) (init : ResponseInit) : Response :=
  mkResponse (Js.nullish (init_status init) 302%nat) (Some url)
             (Js.nullish (init_headers init) []) "".

(** [{ ...responseInit, headers }] *)
Definition spread_init (responseInit : option ResponseInit) (headers : Headers)
  : ResponseInit :=
  mkInit (match responseInit with Some i => init_status i | None => None end)
         (Some headers).

(** [responseInit?.headers] *)
Definition init_headers_opt (responseInit : option ResponseInit) : option Headers :=
  match responseInit with Some i => init_headers i | None => None end.

Record Request := mkRequest {
  req_url : string;
  req_cookie : option string }.   (* request.headers.get('cookie') *)

(** A cookie session: the key/value data of [session.get(key)]. *)
Definition CookieSession := list (string * string).

Fixpoint cookie_get (s : CookieSession) (key : string) : option string :=
  match s with
  | [] => None
  | (k, v) :: r => if k =? key then Some v else cookie_get r key
  end.

(* ===================================================================== *)
(** ** app/utils/auth.server.ts *)
(* ===================================================================== *)

Definition SESSION_EXPIRATION_TIME : Z := 1000 * 60 * 60 * 24 * 30.

Definition getSessionExpirationDate (now : Date) : Date :=
  now + SESSION_EXPIRATION_TIME.

Definition sessionKey : string := "sessionId".

(** [{ contentType, blob }], what [downloadFile] resolves to. *)
Record File := mkFile {
  file_contentType : string;
  file_blob : string }.

(** [.returning({ id: sessions.id, expirationDate: sessions.expirationDate })] *)
Record SessionInfo := mkSessionInfo {
  info_id : Id;
  info_expirationDate : Date }.

Definition returning_session (s : Session) : SessionInfo :=
  mkSessionInfo (session_id s) (session_expirationDate s).

(** [await] of a collaborator's promise. *)
Definition await {S A} (p : Thrown + A) : ST S A :=
  match p with
  | inr a => ret a
  | inl e => throw e
  end.

(** The [where] of a relational query: a condition, or [undefined]. *)
Definition Where := option (User -> bool).

Definition where_holds (w : Where) (u : User) : bool :=
  match w with
  | Some p => p u
  | None => true
  end.

(** [with: { relation: .. }]: the row of the target table that the join
    columns tie to a source row. *)
Definition related {Source Target} (columns : (Source -> Id) * (Target -> Id))
    (row : Source) (targets : list Target) : option Target :=
  findFirst (fun t => snd columns t =? fst columns row) targets.

(** The readings of the clock during a signup flow, one for each
    [new Date()] of a [createdAt] or [updatedAt] default and for the
    [Date.now()] of [getSessionExpirationDate]. *)
Record Clock := mkClock {
  at_user_createdAt : Date;
  at_user_updatedAt : Date;
  at_connection_createdAt : Date;
  at_connection_updatedAt : Date;
  at_image_createdAt : Date;
  at_image_updatedAt : Date;
  at_expiration : Date;
  at_session_createdAt : Date;
  at_session_updatedAt : Date }.

Section Auth.

(** [String.prototype.toLowerCase]. *)
Variable toLowerCase : string -> string.

(** bcryptjs: [bcrypt.hash(password, rounds)], with the salt it draws, and
    [bcrypt.compare(password, hash)]. *)
Variable bcrypt_hash : string -> nat -> string.
Variable bcrypt_compare : string -> string -> bool.

(** [authSessionStorage] of [./session.server.ts]. *)
Variable authSessionStorage_getSession : option string -> CookieSession.
Variable authSessionStorage_destroySession : CookieSession -> string.

(** [safeRedirect] of remix-utils, [combineHeaders] and [downloadFile] of
    [./misc.tsx]. *)
Variable safeRedirect : string -> string.
Variable combineHeaders : list (option Headers) -> Headers.
Variable downloadFile : string -> Thrown + File.

Definition getPasswordHash (password : string) : string :=
  bcrypt_hash password 10%nat.

Definition getUserId (now : Date) (request : Request) : M (option Id) :=
  let authSession := authSessionStorage_getSession (req_cookie request) in
  let sessionId := cookie_get authSession sessionKey in
  match sessionId with
  | None => ret None
  | Some sid =>
      if negb (Js.truthy (Some sid)) then ret None
      else
        columns <- await (normalizeRelation sessions_user) ;;
        session <- gets (fun db =>
          findFirst (fun s => (session_id s =? sid)
                              && (timestamp_toDriver (session_expirationDate s)
                                  >? timestamp_toDriver now)%Z)%bool
                    (sessions db)) ;;
        user <- gets (fun db =>
          match session with
          | Some s => related columns s (users db)
          | None => None
          end) ;;
        match user with
        | None =>
            throw (ThrownResponse
              (redirect "/" (mkInit None (Some
                 [("set-cookie", authSessionStorage_destroySession authSession)]))))
        | Some u => ret (Some (user_id u))
        end
  end.

Definition resetUserPassword (username password : string) : M User :=
  let hashedPassword := getPasswordHash password in
  transaction (
    found <- gets (fun db =>
      findFirst (fun u => user_username u =? username) (users db)) ;;
    user <- invariant found "User not found" ;;
    update_passwords_set (mkPassword hashedPassword (user_id user)) ;;;
    ret user).

(** The callback [signup] hands to [db.transaction]. *)
Definition signup_tx (clock : Clock) (uid sid : Id)
    (email username : string) (hashedPassword : string) (name : option string)
  : M SessionInfo :=
  inserted <- insert_users
    (mkUser uid (toLowerCase email) (toLowerCase username) name
            (at_user_createdAt clock) (at_user_updatedAt clock)) ;;
  found <- gets (fun db => findFirst (fun r => role_name r =? "user") (roles db)) ;;
  role <- invariant found "Failed to find user role" ;;
  user <- invariant (hd_error inserted) "Failed to create user" ;;
  insert_passwords (mkPassword hashedPassword (user_id user)) ;;;
  insert_rolesToUsers (mkRoleUser (role_id role) (user_id user)) ;;;
  created <- insert_sessions
    (mkSession sid (getSessionExpirationDate (at_expiration clock))
               (at_session_createdAt clock) (at_session_updatedAt clock)
               (user_id user)) ;;
  session <- invariant (hd_error (map returning_session created))
                       "Failed to create session" ;;
  ret session.

Definition signup (clock : Clock) (uid sid : Id)
    (email username : string) (password : string) (name : option string)
  : M SessionInfo :=
  let hashedPassword := getPasswordHash password in
  session <- transaction
    (signup_tx clock uid sid email username hashedPassword name) ;;
  ret session.

(** The callback [signupWithConnection] hands to [db.transaction]. *)
Definition signupWithConnection_tx (clock : Clock) (uid cid iid sid : Id)
    (email username : string) (name : option string)
    (providerId providerName : string) (imageUrl : option string)
  : M SessionInfo :=
  inserted <- insert_users
    (mkUser uid (toLowerCase email) (toLowerCase username) name
            (at_user_createdAt clock) (at_user_updatedAt clock)) ;;
  found <- gets (fun db => findFirst (fun r => role_name r =? "user") (roles db)) ;;
  user <- invariant (hd_error inserted) "Failed to create user" ;;
  role <- invariant found "Failed to find user role" ;;
  insert_rolesToUsers (mkRoleUser (role_id role) (user_id user)) ;;;
  insert_connections
    (mkConnection cid providerName providerId
                  (at_connection_createdAt clock) (at_connection_updatedAt clock)
                  (user_id user)) ;;;
  match imageUrl with
  | Some url =>
      if Js.truthy (Some url) then
        file <- await (downloadFile url) ;;
        insert_userImages
          (mkUserImage iid None (file_contentType file) (file_blob file)
                       (at_image_createdAt clock) (at_image_updatedAt clock)
                       (user_id user))
      else ret tt
  | None => ret tt
  end ;;;
  created <- insert_sessions
    (mkSession sid (getSessionExpirationDate (at_expiration clock))
               (at_session_createdAt clock) (at_session_updatedAt clock)
               (user_id user)) ;;
  session <- invariant (hd_error (map returning_session created))
                       "Failed to create session" ;;
  ret session.

Definition signupWithConnection (clock : Clock) (uid cid iid sid : Id)
    (email username : string) (name : option string)
    (providerId providerName : string) (imageUrl : option string)
  : M SessionInfo :=
  session <- transaction
    (signupWithConnection_tx clock uid cid iid sid email username name
       providerId providerName imageUrl) ;;
  ret session.

(** [logout]: the delete is started and not awaited; [fault] tells whether
    the store refuses it.  Every path ends in [throw redirect(..)]. *)
Definition logout (fault : bool) (request : Request)
    (redirectTo : option string) (responseInit : option ResponseInit) : M unit :=
  let redirectTo := Js.nullish redirectTo "/" in
  let authSession := authSessionStorage_getSession (req_cookie request) in
  let sessionId := cookie_get authSession sessionKey in
  match sessionId with
  | Some sid =>
      if Js.truthy (Some sid) then
        catch_ignore (delete_sessions_where fault (fun s => session_id s =? sid))
      else ret tt
  | None => ret tt
  end ;;;
  throw (ThrownResponse
    (redirect (safeRedirect redirectTo)
       (spread_init responseInit
          (combineHeaders
             [ Some [("set-cookie", authSessionStorage_destroySession authSession)];
               init_headers_opt responseInit ])))).

Definition verifyUserPassword (where_ : Where) (password : string) : M (option Id) :=
  columns <- await (normalizeRelation users_password) ;;
  userWithPassword <- gets (fun db =>
    match findFirst (where_holds where_) (users db) with
    | Some u => Some (user_id u, related columns u (passwords db))
    | None => None
    end) ;;
  match userWithPassword with
  | None => ret None
  | Some (_, None) => ret None
  | Some (id, Some pw) =>
      let isValid := bcrypt_compare password (password_hash pw) in
      if negb isValid then ret None
      else ret (Some id)
  end.

(** The response [getUserId] has for a session id that resolves to no
    live session. *)
Definition stale_cookie_redirect (request : Request) : Response :=
  redirect "/" (mkInit None (Some
    [("set-cookie",
      authSessionStorage_destroySession
        (authSessionStorage_getSession (req_cookie request)))])).

(** The response [logout] throws. *)
Definition logout_redirect (request : Request) (redirectTo : option string)
    (responseInit : option ResponseInit) : Response :=
  redirect (safeRedirect (Js.nullish redirectTo "/"))
    (spread_init responseInit
       (combineHeaders
          [ Some [("set-cookie",
                   authSessionStorage_destroySession
                     (authSessionStorage_getSession (req_cookie request)))];
            init_headers_opt responseInit ])).

End Auth.

(* ===================================================================== *)
(** ** app/routes/settings+/profile.change-email.server.tsx *)
(* ===================================================================== *)

(** The React element an email is rendered from. *)
Inductive EmailTemplate :=
| EmailChangeEmail (verifyUrl otp : string)
| EmailChangeNoticeEmail (userId : Id).

(** The argument of [sendEmail]. *)
Record Email := mkEmail {
  email_to : string;
  email_subject : string;
  email_react : EmailTemplate }.

(** What the handler acts on: the store and the emails handed to
    [sendEmail]. *)
Record World := mkWorld {
  w_db : DB;
  w_outbox : list Email }.

(** A statement of the store, run in the world. *)
Definition on_db {A} (m : M A) : ST World A :=
  fun w =>
    match m (w_db w) with
    | (r, db') => (r, mkWorld db' (w_outbox w))
    end.

(** [void sendEmail(..)] *)
Definition sendEmail (e : Email) : ST World unit :=
  modify (fun w => mkWorld (w_db w) (w_outbox w ++ [e])).

Inductive SubmissionStatus := StatusSuccess | StatusError.

(** [submission] of [VerifyFunctionArgs]: its status and
    [submission.value.target]. *)
Record Submission := mkSubmission {
  submission_status : SubmissionStatus;
  submission_target : string }.

Record Toast := mkToast {
  toast_title : string;
  toast_type : string;
  toast_description : string }.

Section ChangeEmail.

(** [requireRecentVerification] of [_auth+/verify.server.ts]: returns, or
    throws what it answers the request with. *)
Variable requireRecentVerification : Request -> option Thrown.

(** [verifySessionStorage] of [utils/verification.server.ts] and the key of
    [./profile.change-email]. *)
Variable verifySessionStorage_getSession : option string -> CookieSession.
Variable verifySessionStorage_destroySession : CookieSession -> string.
Variable newEmailAddressSessionKey : string.

(** [submission.reply({ formErrors })] serialised by [json], and
    [redirectWithToast] of [utils/toast.server.ts]. *)
Variable submission_reply : Submission -> list string -> string.
Variable redirectWithToast : string -> Toast -> ResponseInit -> Response.

Definition handleVerification (request : Request) (submission : Submission)
  : ST World Response :=
  match requireRecentVerification request with
  | Some e => throw e
  | None => ret tt
  end ;;;
  invariant
    (match submission_status submission with
     | StatusSuccess => Some tt
     | StatusError => None
     end)
    "Submission should be successful by now" ;;;
  let verifySession := verifySessionStorage_getSession (req_cookie request) in
  let newEmail := cookie_get verifySession newEmailAddressSessionKey in
  match newEmail with
  | None =>
      ret (mkResponse 400 None []
             (submission_reply submission
                ["You must submit the code on the same device that requested the email change."]))
  | Some newEmail =>
      if negb (Js.truthy (Some newEmail)) then
        ret (mkResponse 400 None []
               (submission_reply submission
                  ["You must submit the code on the same device that requested the email change."]))
      else
        found <- gets (fun w =>
          findFirst (fun u => user_id u =? submission_target submission)
                    (users (w_db w))) ;;
        preUpdateUser <- invariant found "User should exist" ;;
        updated <- on_db (update_users_set_email newEmail
                            (fun u => user_id u =? submission_target submission)) ;;
        user <- invariant (hd_error updated) "User should exist" ;;
        sendEmail (mkEmail (user_email preUpdateUser) "Epic Stack email changed"
                           (EmailChangeNoticeEmail (user_id user))) ;;;
        ret (redirectWithToast "/settings/profile"
               (mkToast "Email Changed" "success"
                  ("Your email has been changed to " ++ user_email user)%string)
               (mkInit None (Some
                  [("set-cookie", verifySessionStorage_destroySession verifySession)])))
  end.

End ChangeEmail.

(* ===================================================================== *)
(** ** Constraints of the schema as predicates on a store *)
(* ===================================================================== *)

Module Integrity.

Fixpoint distinct (l : list string) : bool :=
  match l with
  | [] => true
  | x :: r => (negb (existsb (String.eqb x) r) && distinct r)%bool
  end.

(** [FOREIGN KEY (`user_id`) REFERENCES `user`(`id`)] of [session]. *)
Definition session_fk (db : DB) : bool :=
  forallb (fun s => has_user (session_userId s) db) (sessions db).

(** Every foreign key of the modelled tables has its referenced row. *)
Definition foreign_keys (db : DB) : bool :=
  (forallb (fun r => has_user (note_ownerId r) db) (notes db)
   && forallb (fun r => existsb (fun n => note_id n =? noteImage_noteId r) (notes db))
              (noteImages db)
   && forallb (fun r => has_user (userImage_userId r) db) (userImages db)
   && forallb (fun r => has_user (password_userId r) db) (passwords db)
   && session_fk db
   && forallb (fun r => has_user (connection_userId r) db) (connections db)
   && forallb (fun r => (has_role (roleUser_roleId r) db
                         && has_user (roleUser_userId r) db)%bool)
              (rolesToUsers db))%bool.

End Integrity.

(* ===================================================================== *)
(** ** Concrete collaborators and stores, for running the model *)
(* ===================================================================== *)

Module Fixture.

(** A stand-in for bcrypt: the hash keeps the password behind a prefix. *)
Definition hash (password : string) (rounds : nat) : string :=
  ("$2a$" ++ password)%string.
Definition compare (password h : string) : bool :=
  h =? ("$2a$" ++ password)%string.

(** [toLowerCase] on ASCII text: the letters A to Z are lowered, every
    other character is kept.  It stands for the platform's function only on
    text of ASCII characters. *)
Definition is_upper (c : ascii) : bool :=
  ((65 <=? nat_of_ascii c) && (nat_of_ascii c <=? 90))%nat%bool.
Definition lower_char (c : ascii) : ascii :=
  if is_upper c then ascii_of_nat (nat_of_ascii c + 32) else c.
Fixpoint toLowerCase_ascii (s : string) : string :=
  match s with
  | EmptyString => EmptyString
  | String c r => String (lower_char c) (toLowerCase_ascii r)
  end.

(** Every reading of the clock at the same instant. *)
Definition clock_at (now : Date) : Clock :=
  mkClock now now now now now now now now now.

(** The session's expiration read in the last millisecond of a second, its
    [createdAt] in the first of the next. *)
Definition clock_across_seconds : Clock :=
  mkClock 1700000000990 1700000000990 1700000000990 1700000000990
          1700000000990 1700000000990 1700000000999 1700000001000 1700000001000.

(** A cookie that carries the session id as it is. *)
Definition getSession (cookie : option string) : CookieSession :=
  match cookie with
  | Some v => [(sessionKey, v)]
  | None => []
  end.
Definition destroySession (s : CookieSession) : string :=
  "en_session=; Max-Age=0".

Definition safeRedirect (to : string) : string := to.
Definition combineHeaders (hs : list (option Headers)) : Headers :=
  concat (map (fun h => Js.nullish h []) hs).

Definition download_error : Thrown :=
  CollaboratorError "Failed to fetch image".
Definition downloadFile_fails (url : string) : Thrown + File :=
  inl download_error.
Definition downloadFile_ok (url : string) : Thrown + File :=
  inr (mkFile "image/png" "PNG").

Definition alice : User := mkUser "u1" "alice@example.com" "alice" (Some "Alice") 0 0.
Definition bob : User := mkUser "u2" "bob@example.com" "bob" None 0 0.
Definition role_user : Role := mkRole "r1" "user" "" 0 0.

(** Only the seeded role. *)
Definition seeded : DB := mkDB [] [] [] [] [] [] [role_user] [] [].

(** No role at all. *)
Definition unseeded : DB := Schema.empty.

(** Two users, each with a password, a session, a note, and an image. *)
Definition two_users : DB :=
  mkDB [alice; bob]
       [mkNote "n1" "t" "c" 0 0 "u1"; mkNote "n2" "t" "c" 0 0 "u2"]
       [mkNoteImage "i1" None "image/png" "x" 0 0 "n1";
        mkNoteImage "i2" None "image/png" "y" 0 0 "n2"]
       [mkUserImage "a1" None "image/png" "z" 0 0 "u1"]
       [mkPassword (hash "alice-pw" 10) "u1"; mkPassword (hash "bob-pw" 10) "u2"]
       [mkSession "s1" 1000 0 0 "u1"; mkSession "s2" 5000 0 0 "u2"]
       [role_user]
       [mkConnection "c1" "github" "42" 0 0 "u1"]
       [mkRoleUser "r1" "u1"; mkRoleUser "r1" "u2"].

Definition request_with (sessionId : string) : Request :=
  mkRequest "https://example.com/me" (Some sessionId).

Definition request_without : Request :=
  mkRequest "https://example.com/me" None.

End Fixture.

(* ===================================================================== *)
(** ** app/utils/auth.server.ts: the guards *)
(* ===================================================================== *)

(** The parts of [new URL(request.url)] the code reads. *)
Record URL := mkURL {
  url_protocol : string;
  url_pathname : string;
  url_search : string }.

(** [parts.filter(Boolean).join(sep)] for parts that are strings or
    [undefined]. *)
Definition join_truthy (sep : string) (parts : list (option string)) : string :=
  String.concat sep
    (flat_map (fun p => if Js.truthy p then [Js.nullish p ""] else []) parts).

(** The [{ redirectTo }] option of [requireUserId]: left out ([None]),
    [null] ([Some None]) or a path. *)
Abbreviation RedirectTo := (option (option string)) (only parsing).

Section Guards.

Variable authSessionStorage_getSession : option string -> CookieSession.
Variable authSessionStorage_destroySession : CookieSession -> string.

(** The platform's [new URL(..)] and [new URLSearchParams(..).toString()]. *)
Variable newURL : string -> URL.
Variable URLSearchParams_toString : list (string * string) -> string.

(** The [throw redirect(loginRedirect)] of [requireUserId]. *)
Definition login_redirect (request : Request) (redirectTo : RedirectTo) : Response :=
  let requestUrl := newURL (req_url request) in
  let redirectTo :=
    match redirectTo with
    | Some None => None
    | Some (Some r) => Some r
    | None => Some (url_pathname requestUrl ++ url_search requestUrl)%string
    end in
  let loginParams :=
    if Js.truthy redirectTo
    then Some (URLSearchParams_toString [("redirectTo", Js.nullish redirectTo "")])
    else None in
  let loginRedirect := join_truthy "?" [Some "/login"; loginParams] in
  redirect loginRedirect (mkInit None None).

Definition requireUserId (now : Date) (request : Request) (redirectTo : RedirectTo)
  : M Id :=
  userId <- getUserId authSessionStorage_getSession
              authSessionStorage_destroySession now request ;;
  match userId with
  | Some uid =>
      if negb (Js.truthy (Some uid))
      then throw (ThrownResponse (login_redirect request redirectTo))
      else ret uid
  | None => throw (ThrownResponse (login_redirect request redirectTo))
  end.

Definition requireAnonymous (now : Date) (request : Request) : M unit :=
  userId <- getUserId authSessionStorage_getSession
              authSessionStorage_destroySession now request ;;
  if Js.truthy userId
  then throw (ThrownResponse (redirect "/" (mkInit None None)))
  else ret tt.

End Guards.

(* ===================================================================== *)
(** ** Guards of the resource routes *)
(* ===================================================================== *)

(** [invariantResponse(value, message, { status })]: throws a Response with
    the message as its body unless the value is there. *)
Definition invariantResponse {S A} (v : option A) (message : string) (status : nat)
  : ST S A :=
  match v with
  | Some a => ret a
  | None => throw (ThrownResponse (mkResponse status None [] message))
  end.

(** A parameter or value that must be truthy: [Some] of it when it is. *)
Definition truthy_value (x : option string) : option string :=
  if Js.truthy x then x else None.

(* ===================================================================== *)
(** ** The note image resource route ([src/unnamed/part_001]) *)
(* ===================================================================== *)

Module NoteImageResource.

(** The double quote of [filename="..."]. *)
Definition dquote : string := String (ascii_of_nat 34) EmptyString.

(** [Buffer.byteLength(blob).toString()] *)
Definition byteLength_toString (blob : string) : string :=
  NilEmpty.string_of_uint (Nat.to_uint (String.length blob)).

Definition loader (params_imageId : option string) : M Response :=
  imageId <- invariantResponse (truthy_value params_imageId)
               "Image ID is required" 400 ;;
  image <- gets (fun db =>
    findFirst (fun i => noteImage_id i =? imageId) (noteImages db)) ;;
  image <- invariantResponse image "Not found" 404 ;;
  ret (mkResponse 200 None
         [ ("Content-Type", noteImage_contentType image);
           ("Content-Length", byteLength_toString (noteImage_blob image));
           ("Content-Disposition",
            ("inline; filename=" ++ dquote ++ imageId ++ dquote)%string);
           ("Cache-Control", "public, max-age=31536000, immutable") ]
         (noteImage_blob image)).

End NoteImageResource.

(* ===================================================================== *)
(** ** The reset-password verification handler ([src/unnamed/part_002]) *)
(* ===================================================================== *)

(** [session.set(key, value)] *)
Definition cookie_set (s : CookieSession) (key value : string) : CookieSession :=
  (key, value) :: filter (fun kv => negb (fst kv =? key)) s.

Module ResetPassword.

Section Handler.

(** [verifySessionStorage] of [utils/verification.server.ts], the key of
    [./reset-password.tsx], and [submission.reply({ fieldErrors })] as [json]
    serialises it. *)
Variable verifySessionStorage_getSession : option string -> CookieSession.
Variable verifySessionStorage_commitSession : CookieSession -> string.
Variable resetPasswordUsernameSessionKey : string.
Variable submission_reply : Submission -> list (string * list string) -> string.

Definition handleVerification (submission : Submission) : M Response :=
  invariant
    (match submission_status submission with
     | StatusSuccess => Some tt
     | StatusError => None
     end)
    "Submission should be successful by now" ;;;
  let target := submission_target submission in
  user <- gets (fun db =>
    findFirst (fun u => (user_email u =? target) || (user_username u =? target))%bool
              (users db)) ;;
  match user with
  | None =>
      ret (mkResponse 400 None []
             (submission_reply submission [("code", ["Invalid code"])]))
  | Some user =>
      let verifySession := verifySessionStorage_getSession None in
      let verifySession :=
        cookie_set verifySession resetPasswordUsernameSessionKey (user_username user) in
      ret (redirect "/reset-password"
             (mkInit None (Some
                [("set-cookie", verifySessionStorage_commitSession verifySession)])))
  end.

End Handler.

End ResetPassword.

(* ===================================================================== *)
(** ** Well-formed stores *)
(* ===================================================================== *)

Module WellFormed.

Fixpoint distinct_by {A} (eqb : A -> A -> bool) (l : list A) : bool :=
  match l with
  | [] => true
  | x :: r => (negb (existsb (eqb x) r) && distinct_by eqb r)%bool
  end.

Definition provider_eqb (a b : string * string) : bool :=
  ((fst a =? fst b) && (snd a =? snd b))%bool.

(** [connection_provider_name_prodiver_id_unique] *)
Definition provider_of (c : Connection) : string * string :=
  (connection_providerName c, connection_providerId c).

(** The primary keys and unique indexes of the modelled tables. *)
Definition unique_keys (db : DB) : bool :=
  (Integrity.distinct (map user_id (users db))
   && Integrity.distinct (map user_email (users db))
   && Integrity.distinct (map user_username (users db))
   && Integrity.distinct (map session_id (sessions db))
   && Integrity.distinct (map connection_id (connections db))
   && distinct_by provider_eqb (map provider_of (connections db))
   && Integrity.distinct (map userImage_id (userImages db)))%bool.

(** A store that satisfies the keys, the unique indexes and the foreign
    keys of the schema. *)
Definition well_formed (db : DB) : bool :=
  (unique_keys db && Integrity.foreign_keys db)%bool.

End WellFormed.

(* ===================================================================== *)
(** ** The rows of a signup flow *)
(* ===================================================================== *)

(** The rows a signup flow stores. *)
Definition new_user (toLowerCase : string -> string) (clock : Clock) (uid : Id)
    (email username : string) (name : option string) : User :=
  stored_user (mkUser uid (toLowerCase email) (toLowerCase username) name
                      (at_user_createdAt clock) (at_user_updatedAt clock)).

Definition new_session (clock : Clock) (sid uid : Id) : Session :=
  stored_session (mkSession sid (getSessionExpirationDate (at_expiration clock))
                            (at_session_createdAt clock)
                            (at_session_updatedAt clock) uid).

Definition new_connection (clock : Clock) (cid uid : Id)
    (providerName providerId : string) : Connection :=
  stored_connection (mkConnection cid providerName providerId
                                  (at_connection_createdAt clock)
                                  (at_connection_updatedAt clock) uid).

(* ===================================================================== *)
(** ** What signupWithConnection stores of the avatar *)
(* ===================================================================== *)

(** The user image rows the flow stores: none without a URL, else the
    downloaded file under the new id. *)
Definition avatar_rows (downloadFile : string -> Thrown + File)
    (clock : Clock) (uid iid : Id) (imageUrl : option string) : list UserImage :=
  match imageUrl with
  | Some url =>
      if Js.truthy (Some url) then
        match downloadFile url with
        | inr file =>
            [stored_userImage
               (mkUserImage iid None (file_contentType file) (file_blob file)
                            (at_image_createdAt clock) (at_image_updatedAt clock)
                            uid)]
        | inl _ => []
        end
      else []
  | None => []
  end.

(* ===================================================================== *)
(** ** More concrete collaborators *)
(* ===================================================================== *)

Module Sample.

(** A request to [/me?tab=notes]. *)
Definition newURL (url : string) : URL := mkURL "https:" "/me" "?tab=notes".

(** A stand-in for the form encoding: pairs joined as they are. *)
Definition URLSearchParams_toString (ps : list (string * string)) : string :=
  String.concat "&" (map (fun kv => (fst kv ++ "=" ++ snd kv)%string) ps).

Definition commitSession (s : CookieSession) : string :=
  String.concat "; " (map (fun kv => (fst kv ++ "=" ++ snd kv)%string) s).

Definition reply (s : Submission) (errors : list (string * list string)) : string :=
  String.concat "; " (map fst errors).

Definition resetPasswordUsernameSessionKey : string := "resetPasswordUsername".

Definition newEmailAddressSessionKey : string := "new-email-address".

(** A cookie that carries the pending new email as it is. *)
Definition verifySession (cookie : option string) : CookieSession :=
  match cookie with
  | Some v => [(newEmailAddressSessionKey, v)]
  | None => []
  end.

End Sample.

(* ===================================================================== *)
(** ** Properties *)
(* ===================================================================== *)

(** Case analysis on the next test of a statement. *)
Ltac step_if :=
  match goal with
  | |- context [if ?c then _ else _] =>
      destruct c eqn:?; simpl; try discriminate
  end.

(** *** Lists, keys and strings *)

Lemma truthy_some (s : string) : Js.truthy (Some s) = true <-> s <> "".
Proof.
  unfold Js.truthy. rewrite negb_true_iff. apply String.eqb_neq.
Qed.

Lemma distinct_key_inj {Row} (key : Row -> string) (l : list Row) (x y : Row) :
  Integrity.distinct (map key l) = true ->
  In x l -> In y l -> key x = key y -> x = y.
Proof.
  induction l as [|a l IH]; simpl; [tauto|].
  intros Hd Hx Hy Hk.
  apply andb_prop in Hd as [Hfresh Hd].
  rewrite negb_true_iff in Hfresh.
  assert (Hnot : forall z, In z l -> key z <> key a).
  { intros z Hz Heq.
    assert (existsb (String.eqb (key a)) (map key l) = true) as Hex.
    { apply existsb_exists. exists (key z). split.
      - now apply in_map.
      - rewrite Heq. apply String.eqb_refl. }
    congruence. }
  destruct Hx as [<-|Hx], Hy as [<-|Hy]; auto.
  - exfalso. apply (Hnot y Hy). now symmetry.
  - exfalso. now apply (Hnot x Hx).
Qed.

(** In a table with a primary key, looking a row up by its key and a
    further condition finds that row or nothing. *)
Lemma find_by_key {Row} (key : Row -> string) (p : Row -> bool)
    (l : list Row) (x : Row) :
  Integrity.distinct (map key l) = true -> In x l ->
  find (fun y => (key y =? key x) && p y)%bool l = if p x then Some x else None.
Proof.
  intros Hd Hx.
  destruct (find _ l) as [y|] eqn:Hf.
  - apply find_some in Hf as [Hy Hc].
    apply andb_prop in Hc as [Hk Hp]. apply String.eqb_eq in Hk.
    assert (y = x) by (eapply distinct_key_inj; eauto). subst y.
    now rewrite Hp.
  - destruct (p x) eqn:Hp; [|reflexivity].
    pose proof (find_none _ _ Hf x Hx) as Hc. simpl in Hc.
    now rewrite String.eqb_refl, Hp in Hc.
Qed.

(** *** Sequencing *)

Lemma bind_return {S A B} (m : ST S A) (k : A -> ST S B) (s s1 : S) (a : A) :
  m s = (Return a, s1) -> bind m k s = k a s1.
Proof. unfold bind. now intros ->. Qed.

Lemma bind_throw {S A B} (m : ST S A) (k : A -> ST S B) (s s1 : S) (e : Thrown) :
  m s = (Throw e, s1) -> bind m k s = (Throw e, s1).
Proof. unfold bind. now intros ->. Qed.

(** *** Timestamps *)

(** A stored timestamp is a whole second, at most one second before the
    instant that was written. *)
Lemma stored_timestamp_bounds (d : Date) :
  stored_timestamp d <= d < stored_timestamp d + 1000.
Proof.
  unfold stored_timestamp, timestamp_fromDriver, timestamp_toDriver.
  pose proof (Z.div_mod d 1000 ltac:(lia)) as Hd.
  pose proof (Z.mod_pos_bound d 1000 ltac:(lia)) as Hm. lia.
Qed.

(** Writing a stored timestamp again changes nothing. *)
Lemma stored_timestamp_idempotent (d : Date) :
  stored_timestamp (stored_timestamp d) = stored_timestamp d.
Proof.
  unfold stored_timestamp, timestamp_fromDriver, timestamp_toDriver.
  now rewrite Z.div_mul by lia.
Qed.

(** The session lifetime is a whole number of seconds: adding it commutes
    with storing. *)
Lemma stored_expiration (d : Date) :
  stored_timestamp (getSessionExpirationDate d)
  = stored_timestamp d + SESSION_EXPIRATION_TIME.
Proof.
  unfold stored_timestamp, timestamp_fromDriver, timestamp_toDriver,
    getSessionExpirationDate, SESSION_EXPIRATION_TIME.
  replace (d + 1000 * 60 * 60 * 24 * 30) with (d + 2592000 * 1000) by lia.
  rewrite Z.div_add by lia. lia.
Qed.

(** *** Relations *)

(** Neither relation the queries of [auth.server.ts] follow can be
    inferred. *)
Lemma sessions_user_not_inferred :
  normalizeRelation sessions_user = inl (RelationError "sessions.user").
Proof. reflexivity. Qed.

Lemma users_password_not_inferred :
  normalizeRelation users_password = inl (RelationError "users.password").
Proof. reflexivity. Qed.

(** *** getUserId *)

Section GetUserId.

Variable getSession : option string -> CookieSession.
Variable destroySession : CookieSession -> string.

(** What [getUserId] does: null without a truthy session id in the cookie;
    with one, the relational query throws before it reads a row. *)
Lemma getUserId_outcome (now : Date) (request : Request) (db : DB) :
  getUserId getSession destroySession now request db
  = (if Js.truthy (cookie_get (getSession (req_cookie request)) sessionKey)
     then Throw (RelationError "sessions.user")
     else Return None,
     db).
Proof.
  unfold getUserId.
  destruct (cookie_get _ sessionKey) as [sid|]; [|reflexivity].
  destruct (Js.truthy (Some sid)); reflexivity.
Qed.

(** [getUserId] only reads the store. *)
Lemma getUserId_reads_only (now : Date) (request : Request) (db : DB) :
  snd (getUserId getSession destroySession now request db) = db.
Proof. now rewrite getUserId_outcome. Qed.



(** X1: with a truthy session id in the cookie, [getUserId] throws the
    error of the relational query builder, that the relation
    [sessions.user] cannot be inferred, and leaves the store as it was: it
    reaches neither the user id nor the redirect that destroys the cookie
    session. *)
Theorem getUserId_relation_not_inferred
    (now : Date) (request : Request) (db : DB) (sid : Id) :
  cookie_get (getSession (req_cookie request)) sessionKey = Some sid ->
  sid <> "" ->
  getUserId getSession destroySession now request db
  = (Throw (RelationError "sessions.user"), db)
  /\ (forall uid, fst (getUserId getSession destroySession now request db)
                  <> Return (Some uid))
  /\ fst (getUserId getSession destroySession now request db)
     <> Throw (ThrownResponse (stale_cookie_redirect getSession destroySession request)).
Proof.
  intros Hc Hne. apply truthy_some in Hne.
  rewrite getUserId_outcome, Hc, Hne. simpl.
  split; [reflexivity|]. split; [intros uid|]; discriminate.
Qed.

End GetUserId.




Example getUserId_live_session :
  getUserId Fixture.getSession Fixture.destroySession 4999
    (Fixture.request_with "s2") Fixture.two_users
  = (Throw (RelationError "sessions.user"), Fixture.two_users).
Proof. reflexivity. Qed.

Example getUserId_no_cookie :
  getUserId Fixture.getSession Fixture.destroySession 0
    Fixture.request_without Fixture.two_users
  = (Return None, Fixture.two_users).
Proof. reflexivity. Qed.

(** *** verifyUserPassword *)

Section VerifyUserPassword.

Variable bcrypt_compare : string -> string -> bool.

(** C3 fails on the code: whatever the selector, the plaintext and the
    store, [verifyUserPassword] throws the error of the relational query
    builder, that the relation [users.password] cannot be inferred; it
    returns neither a user id nor null. *)
Theorem verifyUserPassword_throws (where_ : Where) (password : string) (db : DB) :
  verifyUserPassword bcrypt_compare where_ password db
  = (Throw (RelationError "users.password"), db).
Proof.
  unfold verifyUserPassword. apply bind_throw.
  rewrite users_password_not_inferred. reflexivity.
Qed.

End VerifyUserPassword.

Example verifyUserPassword_right_password :
  passwords Fixture.two_users
  = [mkPassword (Fixture.hash "alice-pw" 10) "u1";
     mkPassword (Fixture.hash "bob-pw" 10) "u2"]
  /\ Fixture.compare "alice-pw" (Fixture.hash "alice-pw" 10) = true
  /\ verifyUserPassword Fixture.compare
       (Some (fun u => user_username u =? "alice")) "alice-pw" Fixture.two_users
     = (Throw (RelationError "users.password"), Fixture.two_users).
Proof. repeat split. Qed.

(** *** resetUserPassword *)

Section ResetUserPassword.

Variable bcrypt_hash : string -> nat -> string.

(** The update has no [where]: once the user is found, every row of the
    password table is rewritten to the new hash and that user's id. *)
Lemma resetUserPassword_rewrites_every_row
    (username password : string) (db : DB) (u : User) :
  findFirst (fun x => user_username x =? username) (users db) = Some u ->
  resetUserPassword bcrypt_hash username password db
  = (Return u,
     set_passwords
       (map (fun _ => mkPassword (getPasswordHash bcrypt_hash password) (user_id u)))
       db).
Proof.
  intros Hu. unfold resetUserPassword, transaction, bind, gets, invariant.
  simpl. rewrite Hu. simpl.
  unfold update_passwords_set.
  destruct (passwords db) as [|p ps] eqn:Hp.
  - simpl. unfold set_passwords. rewrite Hp. simpl. destruct db; simpl in *.
    now subst.
  - assert (has_user (user_id u) db = true) as Hhas.
    { unfold has_user. apply existsb_exists. exists u.
      apply find_some in Hu as [Hin _]. split; [exact Hin|apply String.eqb_refl]. }
    simpl. rewrite Hhas. simpl. unfold set_passwords. now rewrite Hp.
Qed.

(** It fails, and writes nothing, when no user has the username. *)
Lemma resetUserPassword_user_absent (username password : string) (db : DB) :
  findFirst (fun x => user_username x =? username) (users db) = None ->
  resetUserPassword bcrypt_hash username password db
  = (Throw (InvariantError "User not found"), db).
Proof.
  intros Hu. unfold resetUserPassword, transaction, bind, gets, invariant.
  simpl. now rewrite Hu.
Qed.

End ResetUserPassword.

(** C1 fails on the code: resetting alice's password in a store where
    alice and bob each have a password row leaves bob's row rewritten too,
    to the new hash and to alice's user id. *)
Theorem resetUserPassword_overwrites_other_users :
  passwords Fixture.two_users
  = [mkPassword "$2a$alice-pw" "u1"; mkPassword "$2a$bob-pw" "u2"]
  /\ resetUserPassword Fixture.hash "alice" "new-pw" Fixture.two_users
     = (Return Fixture.alice,
        set_passwords
          (fun _ => [mkPassword "$2a$new-pw" "u1"; mkPassword "$2a$new-pw" "u1"])
          Fixture.two_users)
  /\ ~ In (mkPassword "$2a$bob-pw" "u2")
          (passwords
             (snd (resetUserPassword Fixture.hash "alice" "new-pw" Fixture.two_users))).
Proof.
  split; [reflexivity|]. split; [reflexivity|].
  simpl. intros [H|[H|[]]]; discriminate.
Qed.

(** *** logout *)

Section Logout.

Variable getSession : option string -> CookieSession.
Variable destroySession : CookieSession -> string.
Variable safeRedirect : string -> string.
Variable combineHeaders : list (option Headers) -> Headers.

(** C9: whether the store runs the delete or refuses it, [logout] ends by
    throwing the redirect whose headers are built from the cookie-destroying
    set-cookie header; a refused delete is swallowed (the thrown value is the
    redirect, never the store's error) and leaves the store as it was. *)
Theorem logout_always_redirects (fault : bool) (request : Request)
    (redirectTo : option string) (responseInit : option ResponseInit) (db : DB) :
  fst (logout getSession destroySession safeRedirect combineHeaders
         fault request redirectTo responseInit db)
  = Throw (ThrownResponse (logout_redirect getSession destroySession safeRedirect combineHeaders request redirectTo responseInit))
  /\ resp_location (logout_redirect getSession destroySession safeRedirect combineHeaders request redirectTo responseInit)
     = Some (safeRedirect (Js.nullish redirectTo "/"))
  /\ resp_headers (logout_redirect getSession destroySession safeRedirect combineHeaders request redirectTo responseInit)
     = combineHeaders
         [ Some [("set-cookie", destroySession (getSession (req_cookie request)))];
           init_headers_opt responseInit ]
  /\ (fault = true ->
      snd (logout getSession destroySession safeRedirect combineHeaders
             fault request redirectTo responseInit db) = db).
Proof.
  unfold logout, logout_redirect, bind, catch_ignore, delete_sessions_where, throw.
  destruct (cookie_get _ sessionKey) as [sid|]; simpl.
  - destruct (negb (sid =? "")); simpl.
    + destruct fault; simpl; repeat split; intros; congruence.
    + repeat split.
  - repeat split.
Qed.

(** When the store runs the delete, the session row is gone. *)
Lemma logout_deletes_session (request : Request) (redirectTo : option string)
    (responseInit : option ResponseInit) (db : DB) (sid : string) :
  cookie_get (getSession (req_cookie request)) sessionKey = Some sid ->
  sid <> "" ->
  snd (logout getSession destroySession safeRedirect combineHeaders
         false request redirectTo responseInit db)
  = set_sessions (filter (fun s => negb (session_id s =? sid))) db.
Proof.
  intros Hc Hne. apply truthy_some in Hne.
  unfold logout, bind, catch_ignore, delete_sessions_where, throw.
  rewrite Hc. cbv iota beta. rewrite Hne. reflexivity.
Qed.

End Logout.

Example logout_store_refuses_delete :
  logout Fixture.getSession Fixture.destroySession Fixture.safeRedirect
    Fixture.combineHeaders true (Fixture.request_with "s1") None None
    Fixture.two_users
  = (Throw (ThrownResponse
       (mkResponse 302 (Some "/") [("set-cookie", "en_session=; Max-Age=0")] "")),
     Fixture.two_users).
Proof. reflexivity. Qed.

Example logout_store_deletes :
  sessions (snd
    (logout Fixture.getSession Fixture.destroySession Fixture.safeRedirect
       Fixture.combineHeaders false (Fixture.request_with "s1") None None
       Fixture.two_users))
  = [mkSession "s2" 5000 0 0 "u2"].
Proof. reflexivity. Qed.

(** *** Transactions *)

Lemma transaction_rolls_back {A} (body : M A) (db db' : DB) (e : Thrown) :
  transaction body db = (Throw e, db') -> db' = db.
Proof.
  unfold transaction. destruct (body db) as [[a|e'] d]; congruence.
Qed.

Lemma transaction_commits {A} (body : M A) (db db' : DB) (a : A) :
  transaction body db = (Return a, db') -> body db = (Return a, db').
Proof.
  unfold transaction. destruct (body db) as [[a'|e'] d]; congruence.
Qed.

Lemma transaction_throws {A} (body : M A) (db d : DB) (e : Thrown) :
  body db = (Throw e, d) -> transaction body db = (Throw e, db).
Proof.
  unfold transaction. now intros ->.
Qed.

(** *** signup *)

(** What the callback of [signup] has written when it returns. *)
Lemma signup_tx_returns (toLowerCase : string -> string) (clock : Clock) (uid sid : Id)
    (email username hashedPassword : string) (name : option string)
    (db db' : DB) (info : SessionInfo) :
  signup_tx toLowerCase clock uid sid email username hashedPassword name db
  = (Return info, db') ->
  exists role,
    findFirst (fun r => role_name r =? "user") (roles db) = Some role
    /\ info = returning_session (new_session clock sid uid)
    /\ db' = mkDB
         (users db ++ [new_user toLowerCase clock uid email username name])
         (notes db) (noteImages db) (userImages db)
         (passwords db ++ [mkPassword hashedPassword uid])
         (sessions db ++ [new_session clock sid uid])
         (roles db) (connections db)
         (rolesToUsers db ++ [mkRoleUser (role_id role) uid]).
Proof.
  unfold signup_tx, bind, insert_users.
  repeat step_if.
  unfold gets, invariant. simpl.
  destruct (findFirst _ (roles db)) as [role|] eqn:Hrole; simpl; [|discriminate].
  unfold insert_passwords, insert_rolesToUsers, insert_sessions, ret. simpl.
  repeat step_if.
  intros [= <- <-]. exists role. repeat split.
Qed.

(** The statements of the flow, when the schema accepts them. *)
Lemma insert_users_ok (row : User) (db : DB) :
  existsb (fun u => user_id u =? user_id row) (users db) = false ->
  existsb (fun u => user_email u =? user_email row) (users db) = false ->
  existsb (fun u => user_username u =? user_username row) (users db) = false ->
  insert_users row db
  = (Return [stored_user row], set_users (fun t => t ++ [stored_user row]) db).
Proof. unfold insert_users. now intros -> -> ->. Qed.

Lemma insert_passwords_ok (row : Password) (db : DB) :
  has_user (password_userId row) db = true ->
  insert_passwords row db = (Return tt, set_passwords (fun t => t ++ [row]) db).
Proof. unfold insert_passwords. now intros ->. Qed.

Lemma insert_rolesToUsers_ok (row : RoleUser) (db : DB) :
  has_role (roleUser_roleId row) db = true ->
  has_user (roleUser_userId row) db = true ->
  insert_rolesToUsers row db
  = (Return tt, set_rolesToUsers (fun t => t ++ [row]) db).
Proof. unfold insert_rolesToUsers. now intros -> ->. Qed.

Lemma insert_sessions_ok (row : Session) (db : DB) :
  existsb (fun s => session_id s =? session_id row) (sessions db) = false ->
  has_user (session_userId row) db = true ->
  insert_sessions row db
  = (Return [stored_session row],
     set_sessions (fun t => t ++ [stored_session row]) db).
Proof. unfold insert_sessions. now intros -> ->. Qed.

Lemma insert_connections_ok (row : Connection) (db : DB) :
  existsb (fun c => connection_id c =? connection_id row) (connections db) = false ->
  existsb (fun c =>
     (connection_providerName c =? connection_providerName row)
     && (connection_providerId c =? connection_providerId row))%bool
    (connections db) = false ->
  has_user (connection_userId row) db = true ->
  insert_connections row db
  = (Return tt, set_connections (fun t => t ++ [stored_connection row]) db).
Proof. unfold insert_connections. now intros -> -> ->. Qed.

Lemma has_user_inserted (row : User) (db : DB) :
  has_user (user_id row) (set_users (fun t => t ++ [row]) db) = true.
Proof.
  unfold has_user. simpl. rewrite existsb_app. simpl.
  now rewrite String.eqb_refl, orb_true_r.
Qed.

Lemma has_role_found (p : Role -> bool) (db : DB) (role : Role) :
  findFirst p (roles db) = Some role -> has_role (role_id role) db = true.
Proof.
  intros Hrole. unfold has_role. apply existsb_exists. exists role.
  apply find_some in Hrole as [Hin _]. split; [exact Hin|apply String.eqb_refl].
Qed.

(** The callback returns when the new identifiers, the lowercased email
    and the lowercased username are not taken and the role is seeded. *)
Lemma signup_tx_succeeds (toLowerCase : string -> string) (clock : Clock)
    (uid sid : Id)
    (email username hashedPassword : string) (name : option string) (db : DB)
    (role : Role) :
  existsb (fun u => user_id u =? uid) (users db) = false ->
  existsb (fun u => user_email u =? toLowerCase email) (users db) = false ->
  existsb (fun u => user_username u =? toLowerCase username) (users db) = false ->
  existsb (fun s => session_id s =? sid) (sessions db) = false ->
  findFirst (fun r => role_name r =? "user") (roles db) = Some role ->
  exists db',
    signup_tx toLowerCase clock uid sid email username hashedPassword name db
    = (Return (returning_session (new_session clock sid uid)), db').
Proof.
  intros Hid Hemail Hname Hsid Hrole.
  pose proof (has_role_found _ _ Hrole) as Hhas.
  unfold signup_tx.
  erewrite bind_return by (apply insert_users_ok; assumption).
  erewrite bind_return by (unfold gets; reflexivity).
  change (roles (set_users _ db)) with (roles db). rewrite Hrole.
  erewrite bind_return by reflexivity.
  erewrite bind_return by reflexivity.
  erewrite bind_return
    by (apply insert_passwords_ok;
        apply has_user_inserted).
  erewrite bind_return
    by (apply insert_rolesToUsers_ok;
        [exact Hhas
        |apply has_user_inserted]).
  erewrite bind_return
    by (apply insert_sessions_ok;
        [exact Hsid
        |apply has_user_inserted]).
  erewrite bind_return by reflexivity.
  eexists. reflexivity.
Qed.

Section Signup.

Variable toLowerCase : string -> string.
Variable bcrypt_hash : string -> nat -> string.
Variable bcrypt_compare : string -> string -> bool.

(** bcrypt verifies a password against a hash it made of it. *)
Hypothesis bcrypt_compare_hash :
  forall password rounds,
    bcrypt_compare password (bcrypt_hash password rounds) = true.

(** C5 (amended): a signup that returns has appended a User whose email and
    username are the lowercase forms of the inputs, a Password row of that
    user whose hash verifies against the given password, a role assignment
    of that user to the role named "user", and a Session of that user, which
    is the session returned.  The session's expiration date is the instant
    [getSessionExpirationDate] read, cut down to its whole second, plus 30
    days: less than a second before that instant plus 30 days.  Its
    [createdAt] is another reading of the clock, cut down likewise. *)
Theorem signup_creates_account (clock : Clock) (uid sid : Id)
    (email username password : string) (name : option string)
    (db db' : DB) (info : SessionInfo) :
  signup toLowerCase bcrypt_hash clock uid sid email username password name db
  = (Return info, db') ->
  exists user pw role session,
    users db' = users db ++ [user]
    /\ user_email user = toLowerCase email
    /\ user_username user = toLowerCase username
    /\ user_name user = name
    /\ passwords db' = passwords db ++ [pw]
    /\ password_userId pw = user_id user
    /\ bcrypt_compare password (password_hash pw) = true
    /\ In role (roles db') /\ role_name role = "user"
    /\ rolesToUsers db' = rolesToUsers db ++ [mkRoleUser (role_id role) (user_id user)]
    /\ sessions db' = sessions db ++ [session]
    /\ session_userId session = user_id user
    /\ session_createdAt session = stored_timestamp (at_session_createdAt clock)
    /\ session_expirationDate session
       = stored_timestamp (at_expiration clock) + 30 * (24 * 60 * 60 * 1000)
    /\ at_expiration clock + 30 * (24 * 60 * 60 * 1000) - 1000
       < session_expirationDate session
       <= at_expiration clock + 30 * (24 * 60 * 60 * 1000)
    /\ info = mkSessionInfo (session_id session) (session_expirationDate session).
Proof.
  unfold signup, bind. intros Hrun.
  destruct (transaction _ db) as [[i|e] d] eqn:Htx; [|discriminate].
  unfold ret in Hrun. injection Hrun as <- <-.
  apply transaction_commits, signup_tx_returns in Htx as (role & Hrole & -> & ->).
  apply find_some in Hrole as [Hin Hname]. apply String.eqb_eq in Hname.
  exists (new_user toLowerCase clock uid email username name),
         (mkPassword (getPasswordHash bcrypt_hash password) uid),
         role,
         (new_session clock sid uid).
  pose proof (stored_expiration (at_expiration clock)) as Hexp.
  pose proof (stored_timestamp_bounds (at_expiration clock)) as Hb.
  unfold SESSION_EXPIRATION_TIME in Hexp.
  simpl.
  do 6 (split; [reflexivity|]).
  split; [apply bcrypt_compare_hash|].
  do 6 (split; [first [assumption|reflexivity]|]).
  split; [lia|]. split; [lia|reflexivity].
Qed.

End Signup.

(** X17: [signup] returns, with a session that expires at the whole second
    of the instant read plus 30 days, whenever the new user id and session
    id, the lowercased email and the lowercased username are not taken and
    the role "user" is seeded. *)
Lemma signup_succeeds (toLowerCase : string -> string)
    (bcrypt_hash : string -> nat -> string)
    (clock : Clock) (uid sid : Id)
    (email username password : string) (name : option string) (db : DB)
    (role : Role) :
  existsb (fun u => user_id u =? uid) (users db) = false ->
  existsb (fun u => user_email u =? toLowerCase email) (users db) = false ->
  existsb (fun u => user_username u =? toLowerCase username) (users db) = false ->
  existsb (fun s => session_id s =? sid) (sessions db) = false ->
  findFirst (fun r => role_name r =? "user") (roles db) = Some role ->
  exists db',
    signup toLowerCase bcrypt_hash clock uid sid email username password name db
    = (Return (mkSessionInfo sid
                 (stored_timestamp (at_expiration clock + SESSION_EXPIRATION_TIME))),
       db').
Proof.
  intros Hid Hemail Hname Hsid Hrole.
  destruct (signup_tx_succeeds toLowerCase clock uid sid email username
              (getPasswordHash bcrypt_hash password) name db
              Hid Hemail Hname Hsid Hrole) as (db' & Htx).
  exists db'. unfold signup, bind, transaction. now rewrite Htx.
Qed.

(** C6: a signup that throws leaves the store exactly as it found it, so no
    User, Password, role-assignment or Session row of the failed flow
    persists, whichever step failed. *)
Theorem signup_all_or_nothing (toLowerCase : string -> string)
    (bcrypt_hash : string -> nat -> string)
    (clock : Clock) (uid sid : Id)
    (email username password : string) (name : option string)
    (db db' : DB) (e : Thrown) :
  signup toLowerCase bcrypt_hash clock uid sid email username password name db
  = (Throw e, db') ->
  db' = db
  /\ users db' = users db /\ passwords db' = passwords db
  /\ rolesToUsers db' = rolesToUsers db /\ sessions db' = sessions db.
Proof.
  unfold signup, bind. intros Hrun.
  destruct (transaction _ db) as [[i|e'] d] eqn:Htx; [discriminate|].
  injection Hrun as <- <-.
  apply transaction_rolls_back in Htx. subst d. repeat split.
Qed.

(** The case the specification names: the role "user" is not seeded.  The
    callback throws after it has inserted the User; the transaction undoes
    the insert. *)
Lemma signup_role_missing (toLowerCase : string -> string)
    (bcrypt_hash : string -> nat -> string)
    (clock : Clock) (uid sid : Id)
    (email username password : string) (name : option string) (db : DB) :
  existsb (fun u => user_id u =? uid) (users db) = false ->
  existsb (fun u => user_email u =? toLowerCase email) (users db) = false ->
  existsb (fun u => user_username u =? toLowerCase username) (users db) = false ->
  findFirst (fun r => role_name r =? "user") (roles db) = None ->
  signup_tx toLowerCase clock uid sid email username
    (getPasswordHash bcrypt_hash password) name db
  = (Throw (InvariantError "Failed to find user role"),
     set_users (fun t => t ++ [new_user toLowerCase clock uid email username name]) db)
  /\ signup toLowerCase bcrypt_hash clock uid sid email username password name db
     = (Throw (InvariantError "Failed to find user role"), db).
Proof.
  intros Hid Hemail Hname Hrole.
  assert (signup_tx toLowerCase clock uid sid email username
            (getPasswordHash bcrypt_hash password) name db
          = (Throw (InvariantError "Failed to find user role"),
             set_users (fun t => t ++ [new_user toLowerCase clock uid email username name]) db))
    as Htx.
  { unfold signup_tx, bind, insert_users. simpl.
    rewrite Hid, Hemail, Hname. unfold gets, invariant. simpl. now rewrite Hrole. }
  split; [exact Htx|].
  unfold signup, bind. now rewrite (transaction_throws _ _ Htx).
Qed.

(** C5, as the specification words it, fails: [getSessionExpirationDate]
    reads the clock in the last millisecond of a second and the session's
    [createdAt] is read in the next.  The session expires neither 30 days
    after its creation instant, stored or read, nor 30 days after the
    instant [getSessionExpirationDate] read. *)
Lemma signup_expiration_is_not_creation_plus_30_days :
  exists session,
    signup Fixture.toLowerCase_ascii Fixture.hash Fixture.clock_across_seconds
      "u9" "s9" "A@B.com" "Alice" "secret123" None Fixture.seeded
    = (Return (mkSessionInfo "s9" 1702592000000),
       mkDB [mkUser "u9" "a@b.com" "alice" None 1700000000000 1700000000000]
            [] [] []
            [mkPassword "$2a$secret123" "u9"]
            [session]
            [Fixture.role_user] []
            [mkRoleUser "r1" "u9"])
    /\ session = mkSession "s9" 1702592000000 1700000001000 1700000001000 "u9"
    /\ at_expiration Fixture.clock_across_seconds = 1700000000999
    /\ at_session_createdAt Fixture.clock_across_seconds = 1700000001000
    /\ session_expirationDate session
       <> session_createdAt session + 30 * (24 * 60 * 60 * 1000)
    /\ session_expirationDate session
       <> at_session_createdAt Fixture.clock_across_seconds
          + 30 * (24 * 60 * 60 * 1000)
    /\ session_expirationDate session
       <> at_expiration Fixture.clock_across_seconds + 30 * (24 * 60 * 60 * 1000).
Proof.
  eexists. split; [vm_compute; reflexivity|].
  split; [reflexivity|]. split; [reflexivity|]. split; [reflexivity|].
  simpl. repeat split; discriminate.
Qed.

Lemma signup_creates_account_witness :
  exists user session,
    users (snd (signup Fixture.toLowerCase_ascii Fixture.hash
                  (Fixture.clock_at 1700000000123) "u9" "s9"
                  "A@B.com" "Alice" "secret123" None Fixture.seeded)) = [user]
    /\ user_email user = "a@b.com"
    /\ user_username user = "alice"
    /\ sessions (snd (signup Fixture.toLowerCase_ascii Fixture.hash
                        (Fixture.clock_at 1700000000123) "u9" "s9"
                        "A@B.com" "Alice" "secret123" None Fixture.seeded))
       = [session]
    /\ session_userId session = user_id user
    /\ session_expirationDate session = 1702592000000.
Proof.
  destruct (@signup_creates_account Fixture.toLowerCase_ascii Fixture.hash Fixture.compare
              (fun p r => String.eqb_refl _)
              (Fixture.clock_at 1700000000123) "u9" "s9" "A@B.com" "Alice"
              "secret123" None
              Fixture.seeded _ _ eq_refl)
    as (user & pw & role & session & Hu & He & Hn & _ & _ & _ & _ & _ & _ & _
        & Hs & Hsu & _ & Hexp & _).
  exists user, session. repeat split; assumption.
Defined.

Lemma signup_all_or_nothing_witness :
  snd (signup Fixture.toLowerCase_ascii Fixture.hash (Fixture.clock_at 0)
         "u9" "s9" "A@B.com" "Alice" "secret123" None Fixture.unseeded)
  = Fixture.unseeded.
Proof.
  apply (@signup_all_or_nothing Fixture.toLowerCase_ascii Fixture.hash (Fixture.clock_at 0)
           "u9" "s9" "A@B.com" "Alice"
           "secret123" None Fixture.unseeded _
           (InvariantError "Failed to find user role")).
  reflexivity.
Defined.

Example signup_duplicate_session_id_rolls_back :
  signup Fixture.toLowerCase_ascii Fixture.hash (Fixture.clock_at 0)
    "u9" "s1" "C@D.com" "Carol" "pw" None Fixture.two_users
  = (Throw (ConstraintError "UNIQUE constraint failed: session.id"),
     Fixture.two_users).
Proof. reflexivity. Qed.

Example signup_username_taken :
  signup Fixture.toLowerCase_ascii Fixture.hash (Fixture.clock_at 0)
    "u9" "s9" "C@D.com" "ALICE" "pw" None Fixture.two_users
  = (Throw (ConstraintError "UNIQUE constraint failed: user.username"),
     Fixture.two_users).
Proof. reflexivity. Qed.

(** When the email and the username are both taken, the store names the
    username. *)
Example signup_email_and_username_taken :
  signup Fixture.toLowerCase_ascii Fixture.hash (Fixture.clock_at 0)
    "u9" "s9" "ALICE@example.com" "ALICE" "pw" None Fixture.two_users
  = (Throw (ConstraintError "UNIQUE constraint failed: user.username"),
     Fixture.two_users).
Proof. reflexivity. Qed.

(** *** signupWithConnection *)

Section SignupWithConnection.

Variable toLowerCase : string -> string.
Variable downloadFile : string -> Thrown + File.

(** With an avatar URL whose download fails, the callback throws: the
    download's error, unless an earlier statement was refused. *)
Lemma signupWithConnection_tx_download_fails (clock : Clock) (uid cid iid sid : Id)
    (email username : string) (name : option string)
    (providerId providerName url : string) (e : Thrown) (db : DB) :
  url <> "" ->
  downloadFile url = inl e ->
  exists e' d,
    signupWithConnection_tx toLowerCase downloadFile clock uid cid iid sid email username name
      providerId providerName (Some url) db
    = (Throw e', d).
Proof.
  intros Hurl Hdl. apply truthy_some in Hurl.
  unfold signupWithConnection_tx. rewrite Hurl, Hdl.
  unfold bind, insert_users.
  repeat step_if; try (eexists; eexists; reflexivity).
  unfold gets, invariant. simpl.
  destruct (findFirst _ (roles db)) as [role|]; simpl;
    [|eexists; eexists; reflexivity].
  unfold insert_rolesToUsers, insert_connections. simpl.
  repeat step_if; eexists; eexists; reflexivity.
Qed.

(** C2 (amended): when an avatar URL is supplied and its download fails,
    [signupWithConnection] does not complete: it throws, and its transaction
    is rolled back, so that no User, role assignment, Connection, user image
    or Session row is created and no session is returned. *)
Theorem signupWithConnection_download_failure_aborts
    (clock : Clock) (uid cid iid sid : Id)
    (email username : string) (name : option string)
    (providerId providerName url : string) (e : Thrown) (db : DB) :
  url <> "" ->
  downloadFile url = inl e ->
  exists e',
    signupWithConnection toLowerCase downloadFile clock uid cid iid sid email username name
      providerId providerName (Some url) db
    = (Throw e', db).
Proof.
  intros Hurl Hdl.
  destruct (signupWithConnection_tx_download_fails clock uid cid iid sid email
              username name providerId providerName db Hurl Hdl) as (e' & d & Htx).
  exists e'. unfold signupWithConnection.
  apply bind_throw. exact (transaction_throws _ _ Htx).
Qed.

(** When the statements before the download are accepted, what is thrown
    is the download's own error. *)
Lemma signupWithConnection_download_error_propagates
    (clock : Clock) (uid cid iid sid : Id)
    (email username : string) (name : option string)
    (providerId providerName url : string) (e : Thrown) (db : DB) (role : Role) :
  url <> "" ->
  downloadFile url = inl e ->
  existsb (fun u => user_id u =? uid) (users db) = false ->
  existsb (fun u => user_email u =? toLowerCase email) (users db) = false ->
  existsb (fun u => user_username u =? toLowerCase username) (users db) = false ->
  findFirst (fun r => role_name r =? "user") (roles db) = Some role ->
  existsb (fun c => connection_id c =? cid) (connections db) = false ->
  existsb (fun c => (connection_providerName c =? providerName)
                    && (connection_providerId c =? providerId))%bool
          (connections db) = false ->
  signupWithConnection toLowerCase downloadFile clock uid cid iid sid email username name
    providerId providerName (Some url) db
  = (Throw e, db).
Proof.
  intros Hurl Hdl Hid Hemail Hname Hrole Hcid Hprov.
  apply truthy_some in Hurl.
  pose proof (has_role_found _ _ Hrole) as Hhas.
  unfold signupWithConnection. apply bind_throw.
  eapply transaction_throws.
  unfold signupWithConnection_tx. rewrite Hurl, Hdl.
  erewrite bind_return by (apply insert_users_ok; assumption).
  erewrite bind_return by (unfold gets; reflexivity).
  change (roles (set_users _ db)) with (roles db). rewrite Hrole.
  erewrite bind_return by reflexivity.
  erewrite bind_return by reflexivity.
  erewrite bind_return
    by (apply insert_rolesToUsers_ok; [exact Hhas|apply has_user_inserted]).
  erewrite bind_return
    by (apply insert_connections_ok; [exact Hcid|exact Hprov|apply has_user_inserted]).
  reflexivity.
Qed.

End SignupWithConnection.

(** C2, as the specification words it, fails: with the role seeded and
    nothing else in the way, a failing avatar download makes
    [signupWithConnection] throw the download's error; no session is
    returned and the store has none of the rows of the flow. *)
Lemma signupWithConnection_avatar_failure_is_fatal :
  Fixture.downloadFile_fails "https://example.com/a.png" = inl Fixture.download_error
  /\ signupWithConnection Fixture.toLowerCase_ascii Fixture.downloadFile_fails
       (Fixture.clock_at 0) "u9" "c9" "i9" "s9"
       "A@B.com" "Alice" None "42" "github" (Some "https://example.com/a.png")
       Fixture.seeded
     = (Throw Fixture.download_error, Fixture.seeded)
  /\ ~ (exists info db',
          signupWithConnection Fixture.toLowerCase_ascii Fixture.downloadFile_fails
       (Fixture.clock_at 0) "u9" "c9" "i9" "s9"
            "A@B.com" "Alice" None "42" "github" (Some "https://example.com/a.png")
            Fixture.seeded
          = (Return info, db')).
Proof.
  split; [reflexivity|]. split; [reflexivity|].
  intros (info & db' & H). discriminate H.
Qed.

Lemma signupWithConnection_download_failure_aborts_witness :
  exists e',
    signupWithConnection Fixture.toLowerCase_ascii Fixture.downloadFile_fails
       (Fixture.clock_at 0) "u9" "c9" "i9" "s9"
      "A@B.com" "Alice" None "42" "github" (Some "https://example.com/a.png")
      Fixture.seeded
    = (Throw e', Fixture.seeded).
Proof.
  apply (@signupWithConnection_download_failure_aborts Fixture.toLowerCase_ascii
           Fixture.downloadFile_fails (Fixture.clock_at 0)
           "u9" "c9" "i9" "s9" "A@B.com" "Alice" None "42" "github"
           "https://example.com/a.png" Fixture.download_error Fixture.seeded).
  - discriminate.
  - reflexivity.
Defined.

Example signupWithConnection_with_avatar :
  signupWithConnection Fixture.toLowerCase_ascii Fixture.downloadFile_ok
    (Fixture.clock_at 0) "u9" "c9" "i9" "s9"
    "A@B.com" "Alice" None "42" "github" (Some "https://example.com/a.png")
    Fixture.seeded
  = (Return (mkSessionInfo "s9" 2592000000),
     mkDB [mkUser "u9" "a@b.com" "alice" None 0 0] [] []
          [mkUserImage "i9" None "image/png" "PNG" 0 0 "u9"] []
          [mkSession "s9" 2592000000 0 0 "u9"] [Fixture.role_user]
          [mkConnection "c9" "github" "42" 0 0 "u9"]
          [mkRoleUser "r1" "u9"]).
Proof. reflexivity. Qed.

Example signupWithConnection_without_avatar :
  fst (signupWithConnection Fixture.toLowerCase_ascii Fixture.downloadFile_fails
       (Fixture.clock_at 0) "u9" "c9" "i9" "s9"
         "A@B.com" "Alice" None "42" "github" None Fixture.seeded)
  = Return (mkSessionInfo "s9" 2592000000).
Proof. reflexivity. Qed.

(** *** Deleting a user *)

(** The ids of the deleted user rows: the id asked for, when a user has it. *)
Lemma deleted_user_ids (us : list User) (u : User) (id : Id) :
  In u us ->
  existsb (fun x => user_id x =? id)
          (filter (fun x => user_id x =? user_id u) us) = true
  <-> id = user_id u.
Proof.
  intros Hin. rewrite existsb_exists. split.
  - intros (x & Hx & Hid). apply filter_In in Hx as [_ Hx].
    apply String.eqb_eq in Hx, Hid. congruence.
  - intros ->. exists u. split; [|apply String.eqb_refl].
    apply filter_In. split; [exact Hin|apply String.eqb_refl].
Qed.

(** The rows a cascading foreign key keeps: those that do not refer to the
    deleted user. *)
Lemma kept_rows {Row} (fk : Row -> Id) (rows : list Row) (us : list User)
    (u : User) (r : Row) :
  In u us ->
  In r (filter (fun r =>
          negb (existsb (fun x => user_id x =? fk r)
                  (filter (fun x => user_id x =? user_id u) us))) rows)
  <-> In r rows /\ fk r <> user_id u.
Proof.
  intros Hin. rewrite filter_In, negb_true_iff.
  rewrite <- (deleted_user_ids us u (fk r) Hin).
  split; intros [H1 H2]; split; auto.
  - now rewrite H2.
  - now apply not_true_is_false.
Qed.

(** What the delete of an existing user leaves: in each table that
    references [user], exactly the rows that belonged to other users; of the
    note images, exactly those of the notes of other users; the roles as
    they were. *)
Lemma delete_users_where_rows (db : DB) (u : User) :
  In u (users db) ->
  exists db',
    delete_users_where (fun x => user_id x =? user_id u) db = (Return tt, db')
    /\ (forall x, In x (users db') <-> In x (users db) /\ user_id x <> user_id u)
    /\ (forall r, In r (sessions db')
                  <-> In r (sessions db) /\ session_userId r <> user_id u)
    /\ (forall r, In r (passwords db')
                  <-> In r (passwords db) /\ password_userId r <> user_id u)
    /\ (forall r, In r (connections db')
                  <-> In r (connections db) /\ connection_userId r <> user_id u)
    /\ (forall r, In r (notes db')
                  <-> In r (notes db) /\ note_ownerId r <> user_id u)
    /\ (forall r, In r (userImages db')
                  <-> In r (userImages db) /\ userImage_userId r <> user_id u)
    /\ (forall r, In r (rolesToUsers db')
                  <-> In r (rolesToUsers db) /\ roleUser_userId r <> user_id u)
    /\ (forall i, In i (noteImages db')
                  <-> In i (noteImages db)
                      /\ forall n, In n (notes db) ->
                                   note_ownerId n = user_id u ->
                                   note_id n <> noteImage_noteId i)
    /\ roles db' = roles db.
Proof.
  intros Hin. unfold delete_users_where.
  unfold note_owner_onDelete, userImage_user_onDelete, password_user_onDelete,
    session_user_onDelete, connection_user_onDelete, roleUser_user_onDelete,
    noteImage_note_onDelete, on_delete.
  rewrite !partition_as_filter. eexists. split; [reflexivity|]. simpl.
  split; [|split; [|split; [|split; [|split; [|split; [|split; [|split]]]]]]].
  - intros x. rewrite filter_In, negb_true_iff. split; intros [H1 H2]; split; auto.
    + intros Heq. apply String.eqb_neq in H2. contradiction.
    + now apply String.eqb_neq.
  - intros r. apply (kept_rows session_userId); exact Hin.
  - intros r. apply (kept_rows password_userId); exact Hin.
  - intros r. apply (kept_rows connection_userId); exact Hin.
  - intros r. apply (kept_rows note_ownerId); exact Hin.
  - intros r. apply (kept_rows userImage_userId); exact Hin.
  - intros r. apply (kept_rows roleUser_userId); exact Hin.
  - intros i. rewrite filter_In, negb_true_iff. split.
    + intros [Hi Hnone]. split; [exact Hi|]. intros n Hn Hown Hid.
      assert (existsb (fun n0 => note_id n0 =? noteImage_noteId i)
                (filter (fun r => existsb (fun x => user_id x =? note_ownerId r)
                           (filter (fun x => user_id x =? user_id u) (users db)))
                        (notes db)) = true) as Hex.
      { apply existsb_exists. exists n. split; [|now apply String.eqb_eq].
        apply filter_In. split; [exact Hn|].
        now apply (deleted_user_ids (users db) u). }
      congruence.
    + intros [Hi Hnone]. split; [exact Hi|].
      apply not_true_is_false. intros Hex.
      apply existsb_exists in Hex as (n & Hn & Hid).
      apply filter_In in Hn as [Hn Hgone].
      apply (deleted_user_ids (users db) u) in Hgone; [|exact Hin].
      apply String.eqb_eq in Hid. exact (Hnone n Hn Hgone Hid).
  - reflexivity.
Qed.

(** C7: deleting an existing user succeeds, and afterwards no user row has
    the deleted id, no session, password, connection, note, user image or
    role assignment refers to it, and no note image refers to a note that
    user owned. *)
Theorem delete_user_cascades (db : DB) (u : User) :
  In u (users db) ->
  exists db',
    delete_users_where (fun x => user_id x =? user_id u) db = (Return tt, db')
    /\ (forall x, In x (users db') -> user_id x <> user_id u)
    /\ (forall r, In r (sessions db') -> session_userId r <> user_id u)
    /\ (forall r, In r (passwords db') -> password_userId r <> user_id u)
    /\ (forall r, In r (connections db') -> connection_userId r <> user_id u)
    /\ (forall r, In r (notes db') -> note_ownerId r <> user_id u)
    /\ (forall r, In r (userImages db') -> userImage_userId r <> user_id u)
    /\ (forall r, In r (rolesToUsers db') -> roleUser_userId r <> user_id u)
    /\ (forall i n, In i (noteImages db') -> In n (notes db) ->
                    note_ownerId n = user_id u ->
                    noteImage_noteId i <> note_id n).
Proof.
  intros Hin.
  destruct (delete_users_where_rows db u Hin)
    as (db' & Hrun & Hu & Hs & Hp & Hc & Hn & Hui & Hru & Hni & _).
  exists db'. split; [exact Hrun|].
  repeat split; try (intros r Hr; first
    [ apply Hu in Hr | apply Hs in Hr | apply Hp in Hr | apply Hc in Hr
    | apply Hn in Hr | apply Hui in Hr | apply Hru in Hr ]; exact (proj2 Hr)).
  intros i n Hi Hnote Hown Heq. apply Hni in Hi as [_ Hnone].
  exact (Hnone n Hnote Hown (eq_sym Heq)).
Qed.

Lemma delete_user_cascades_witness :
  exists db',
    delete_users_where (fun x => user_id x =? "u1") Fixture.two_users
    = (Return tt, db')
    /\ forall r, In r (sessions db') -> session_userId r <> "u1".
Proof.
  destruct (delete_user_cascades Fixture.two_users Fixture.alice
              (or_introl eq_refl))
    as (db' & Hrun & _ & Hs & _).
  exists db'. split; [exact Hrun|exact Hs].
Defined.

Example delete_user_alice :
  delete_users_where (fun x => user_id x =? "u1") Fixture.two_users
  = (Return tt,
     mkDB [Fixture.bob]
          [mkNote "n2" "t" "c" 0 0 "u2"]
          [mkNoteImage "i2" None "image/png" "y" 0 0 "n2"]
          []
          [mkPassword "$2a$bob-pw" "u2"]
          [mkSession "s2" 5000 0 0 "u2"]
          [Fixture.role_user]
          []
          [mkRoleUser "r1" "u2"]).
Proof. reflexivity. Qed.

Lemma has_user_In (db : DB) (id : Id) :
  has_user id db = true <-> exists x, In x (users db) /\ user_id x = id.
Proof.
  unfold has_user. rewrite existsb_exists.
  split; intros (x & Hx & Hid); exists x; split; auto; now apply String.eqb_eq.
Qed.

(** A store whose foreign keys hold still satisfies them after the delete:
    the cascade leaves no orphan. *)
Lemma delete_user_keeps_foreign_keys (db db' : DB) (u : User) :
  In u (users db) ->
  Integrity.foreign_keys db = true ->
  delete_users_where (fun x => user_id x =? user_id u) db = (Return tt, db') ->
  Integrity.foreign_keys db' = true.
Proof.
  intros Hin Hfk Hrun.
  destruct (delete_users_where_rows db u Hin)
    as (d & Hrun' & Hu & Hs & Hp & Hc & Hn & Hui & Hru & Hni & Hroles).
  rewrite Hrun in Hrun'. injection Hrun' as <-.
  assert (Hkeep : forall id, id <> user_id u -> has_user id db = true ->
                             has_user id db' = true).
  { intros id Hne Hhas. apply has_user_In in Hhas as (x & Hx & Hid).
    apply has_user_In. exists x. split; [|exact Hid].
    apply Hu. split; [exact Hx|congruence]. }
  unfold Integrity.foreign_keys, Integrity.session_fk in *.
  repeat (apply andb_prop in Hfk as [Hfk ?]).
  repeat (apply andb_true_intro; split);
    apply forallb_forall; intros r Hr.
  - apply Hn in Hr as [Hr Hne].
    apply Hkeep; [exact Hne|]. eapply forallb_forall in Hfk; eauto.
  - apply Hni in Hr as [Hr Hnone].
    match goal with
    | H : forallb _ (noteImages db) = true |- _ =>
        eapply forallb_forall in H; [|exact Hr];
        apply existsb_exists in H as (n & Hnin & Hid)
    end.
    apply String.eqb_eq in Hid.
    apply existsb_exists. exists n. split; [|now apply String.eqb_eq].
    apply Hn. split; [exact Hnin|]. intros Hown. exact (Hnone n Hnin Hown Hid).
  - apply Hui in Hr as [Hr Hne]. apply Hkeep; [exact Hne|].
    match goal with
    | H : forallb _ (userImages db) = true |- _ =>
        eapply forallb_forall in H; eauto
    end.
  - apply Hp in Hr as [Hr Hne]. apply Hkeep; [exact Hne|].
    match goal with
    | H : forallb _ (passwords db) = true |- _ =>
        eapply forallb_forall in H; eauto
    end.
  - apply Hs in Hr as [Hr Hne]. apply Hkeep; [exact Hne|].
    match goal with
    | H : forallb _ (sessions db) = true |- _ =>
        eapply forallb_forall in H; eauto
    end.
  - apply Hc in Hr as [Hr Hne]. apply Hkeep; [exact Hne|].
    match goal with
    | H : forallb _ (connections db) = true |- _ =>
        eapply forallb_forall in H; eauto
    end.
  - apply Hru in Hr as [Hr Hne].
    match goal with
    | H : forallb _ (rolesToUsers db) = true |- _ =>
        eapply forallb_forall in H; [|exact Hr];
        apply andb_prop in H as [Hrole Huser]
    end.
    apply andb_true_intro. split.
    + unfold has_role in *. now rewrite Hroles.
    + now apply Hkeep.
Qed.

(** *** The change-email handler *)

Lemma find_filter_head {A} (p : A -> bool) (l : list A) (x : A) :
  find p l = Some x -> exists rest, filter p l = x :: rest.
Proof.
  induction l as [|a l IH]; simpl; [discriminate|].
  destruct (p a).
  - intros [= ->]. now eexists.
  - exact IH.
Qed.

(** A key that is distinct in a table selects one row at most. *)
Lemma distinct_key_selects_one {Row} (key : Row -> string) (k : string)
    (l : list Row) :
  Integrity.distinct (map key l) = true ->
  Nat.le (length (filter (fun r => key r =? k) l)) 1.
Proof.
  induction l as [|a l IH]; simpl; [lia|].
  intros Hd. apply andb_prop in Hd as [Hfresh Hd].
  rewrite negb_true_iff in Hfresh.
  destruct (key a =? k) eqn:Hk; [|now apply IH].
  apply String.eqb_eq in Hk. subst k.
  assert (filter (fun r => key r =? key a) l = []) as ->; [|simpl; lia].
  destruct (filter _ l) as [|b r] eqn:Hf; [reflexivity|].
  assert (In b (filter (fun r => key r =? key a) l)) as Hb
    by (rewrite Hf; now left).
  apply filter_In in Hb as [Hb Hkb]. apply String.eqb_eq in Hkb.
  assert (existsb (String.eqb (key a)) (map key l) = true) as Hex.
  { apply existsb_exists. exists (key b). split; [now apply in_map|].
    rewrite Hkb. apply String.eqb_refl. }
  congruence.
Qed.

Lemma filter_map_length {A B} (f : A -> B) (p : B -> bool) (l : list A) :
  length (filter p (map f l)) = length (filter (fun x => p (f x)) l).
Proof.
  induction l as [|a l IH]; simpl; [reflexivity|].
  destruct (p (f a)); simpl; now rewrite IH.
Qed.

(** The update of one user's email meets no clash when no other user has
    that email. *)
Lemma update_email_no_clash (email target : string) (l : list User) :
  Integrity.distinct (map user_id l) = true ->
  (forall u, In u l -> user_id u <> target -> user_email u <> email) ->
  Nat.ltb 1
    (length (filter (fun u => user_email u =? email)
               (map (fun u => if user_id u =? target
                              then set_user_email email u else u) l)))
  = false.
Proof.
  intros Hd Hfree. apply Nat.ltb_ge.
  rewrite filter_map_length.
  rewrite (filter_ext_in _ (fun u => user_id u =? target)).
  - now apply distinct_key_selects_one.
  - intros u Hu. destruct (user_id u =? target) eqn:Hid; simpl.
    + apply String.eqb_refl.
    + apply String.eqb_neq. apply Hfree; [exact Hu|]. now apply String.eqb_neq.
Qed.

Section ChangeEmailProperties.

Variable requireRecentVerification : Request -> option Thrown.
Variable getSession : option string -> CookieSession.
Variable destroySession : CookieSession -> string.
Variable newEmailAddressSessionKey : string.
Variable submission_reply : Submission -> list string -> string.
Variable redirectWithToast : string -> Toast -> ResponseInit -> Response.

Local Abbreviation handle :=
  (handleVerification requireRecentVerification getSession destroySession
     newEmailAddressSessionKey submission_reply redirectWithToast).

(** C8: the handler first calls [requireRecentVerification]; when that
    throws, the handler throws the same and changes nothing.  Otherwise the
    handler either leaves the store and the outbox as they were, or it has
    passed the guard, set the email of the target user to the pending new
    email, and handed [sendEmail] exactly one notice, addressed to the email
    the target user had before the update (so not to the new address, when
    the two differ).  And it does update and notify: when the guard passes,
    the submission is successful, the cookie carries a pending new email,
    the target user exists and no other user has that email, the handler
    returns the redirect with the toast, the target user has the new email,
    and the outbox has gained that one notice to the old address. *)
Theorem handleVerification_guard_and_notice
    (request : Request) (submission : Submission) (w : World) :
  (forall e, requireRecentVerification request = Some e ->
             handle request submission w = (Throw e, w))
  /\ (snd (handle request submission w) = w
      \/ exists old newEmail,
           requireRecentVerification request = None
           /\ submission_status submission = StatusSuccess
           /\ cookie_get (getSession (req_cookie request)) newEmailAddressSessionKey
              = Some newEmail
           /\ findFirst (fun u => user_id u =? submission_target submission)
                        (users (w_db w)) = Some old
           /\ users (w_db (snd (handle request submission w)))
              = map (fun u => if user_id u =? submission_target submission
                              then set_user_email newEmail u else u)
                    (users (w_db w))
           /\ w_outbox (snd (handle request submission w))
              = w_outbox w
                ++ [mkEmail (user_email old) "Epic Stack email changed"
                      (EmailChangeNoticeEmail (submission_target submission))]
           /\ (user_email old <> newEmail ->
               forall m, In m [mkEmail (user_email old) "Epic Stack email changed"
                                 (EmailChangeNoticeEmail (submission_target submission))] ->
                         email_to m <> newEmail))
  /\ (forall old newEmail,
        requireRecentVerification request = None ->
        submission_status submission = StatusSuccess ->
        cookie_get (getSession (req_cookie request)) newEmailAddressSessionKey
        = Some newEmail ->
        newEmail <> "" ->
        Integrity.distinct (map user_id (users (w_db w))) = true ->
        findFirst (fun u => user_id u =? submission_target submission)
                  (users (w_db w)) = Some old ->
        (forall u, In u (users (w_db w)) ->
                   user_id u <> submission_target submission ->
                   user_email u <> newEmail) ->
        handle request submission w
        = (Return
             (redirectWithToast "/settings/profile"
                (mkToast "Email Changed" "success"
                   ("Your email has been changed to " ++ newEmail)%string)
                (mkInit None (Some
                   [("set-cookie",
                     destroySession (getSession (req_cookie request)))]))),
           mkWorld
             (set_users
                (fun _ =>
                   map (fun u => if user_id u =? submission_target submission
                                 then set_user_email newEmail u else u)
                       (users (w_db w)))
                (w_db w))
             (w_outbox w
              ++ [mkEmail (user_email old) "Epic Stack email changed"
                    (EmailChangeNoticeEmail (submission_target submission))]))).
Proof.
  destruct w as [db out]. unfold handleVerification.
  split; [|split].
  - intros e He. rewrite He. reflexivity.
  - destruct (requireRecentVerification request) as [e|] eqn:Hguard;
      [left; reflexivity|].
    destruct (submission_status submission) eqn:Hstatus; [|left; reflexivity].
    destruct (cookie_get _ newEmailAddressSessionKey) as [newEmail|] eqn:Hcookie;
      [|left; reflexivity].
    destruct (Js.truthy (Some newEmail)) eqn:Htruthy; [|left; reflexivity].
    unfold bind, gets, invariant, ret, throw, on_db, sendEmail, modify. simpl.
    destruct (findFirst _ db.(users)) as [old|] eqn:Hold; [|left; reflexivity].
    simpl. unfold update_users_set_email. simpl.
    match goal with
    | |- context [if ?c then _ else _] => destruct c eqn:Hclash
    end; [left; reflexivity|].
    simpl.
    destruct (find_filter_head _ _ Hold) as (rest & Hfilter).
    rewrite Hfilter. simpl.
    right. exists old, newEmail.
    apply find_some in Hold as [_ Hid]. apply String.eqb_eq in Hid.
    rewrite Hid.
    repeat split; auto.
    intros Hne m [<-|[]]. exact Hne.
  - intros old newEmail Hguard Hstatus Hcookie Hne Hpk Hold Hfree.
    apply truthy_some in Hne. simpl in Hpk, Hold, Hfree.
    rewrite Hguard, Hstatus, Hcookie. cbv iota beta. rewrite Hne.
    unfold bind, gets, invariant, ret, throw, on_db, sendEmail, modify. simpl.
    rewrite Hold. simpl. unfold update_users_set_email. simpl.
    rewrite (@update_email_no_clash _ _ _ Hpk Hfree), andb_false_r.
    destruct (find_filter_head _ _ Hold) as (rest & Hfilter).
    rewrite Hfilter. simpl.
    apply find_some in Hold as [_ Hid]. apply String.eqb_eq in Hid.
    now rewrite Hid.
Qed.

End ChangeEmailProperties.

Lemma handleVerification_guard_and_notice_witness :
  handleVerification (fun _ => None) Sample.verifySession Fixture.destroySession
    Sample.newEmailAddressSessionKey
    (fun _ errors => String.concat "; " errors)
    (fun url toast init => redirect url init)
    (Fixture.request_with "new@example.com")
    (mkSubmission StatusSuccess "u1")
    (mkWorld Fixture.two_users [])
  = (Return (redirect "/settings/profile"
               (mkInit None (Some
                  [("set-cookie",
                    Fixture.destroySession
                      (Sample.verifySession
                         (req_cookie (Fixture.request_with "new@example.com"))))]))),
     mkWorld
       (set_users
          (fun _ =>
             map (fun u => if user_id u =? "u1"
                           then set_user_email "new@example.com" u else u)
                 (users Fixture.two_users))
          Fixture.two_users)
       ([] ++ [mkEmail (user_email Fixture.alice) "Epic Stack email changed"
                 (EmailChangeNoticeEmail "u1")])).
Proof.
  apply (proj2 (proj2
           (@handleVerification_guard_and_notice (fun _ => None)
              Sample.verifySession Fixture.destroySession
              Sample.newEmailAddressSessionKey
              (fun _ errors => String.concat "; " errors)
              (fun url toast init => redirect url init)
              (Fixture.request_with "new@example.com")
              (mkSubmission StatusSuccess "u1")
              (mkWorld Fixture.two_users [])))
           Fixture.alice "new@example.com").
  - reflexivity.
  - reflexivity.
  - reflexivity.
  - discriminate.
  - reflexivity.
  - reflexivity.
  - simpl. intros u [<-|[<-|[]]] Hid; [now contradiction Hid|discriminate].
Defined.

Example handleVerification_changes_email :
  handleVerification (fun _ => None) Fixture.getSession Fixture.destroySession sessionKey
    (fun _ errors => String.concat "; " errors)
    (fun url toast init => redirect url init)
    (Fixture.request_with "new@example.com")
    (mkSubmission StatusSuccess "u1")
    (mkWorld Fixture.two_users [])
  = (Return (mkResponse 302 (Some "/settings/profile")
               [("set-cookie", "en_session=; Max-Age=0")] ""),
     mkWorld
       (set_users
          (fun _ => [mkUser "u1" "new@example.com" "alice" (Some "Alice") 0 0;
                     Fixture.bob])
          Fixture.two_users)
       [mkEmail "alice@example.com" "Epic Stack email changed"
          (EmailChangeNoticeEmail "u1")]).
Proof. reflexivity. Qed.

Example handleVerification_guard_refuses :
  handleVerification (fun _ => Some (ThrownResponse (redirect "/verify" (mkInit None None))))
    Fixture.getSession Fixture.destroySession sessionKey
    (fun _ errors => String.concat "; " errors)
    (fun url toast init => redirect url init)
    (Fixture.request_with "new@example.com")
    (mkSubmission StatusSuccess "u1")
    (mkWorld Fixture.two_users [])
  = (Throw (ThrownResponse (redirect "/verify" (mkInit None None))),
     mkWorld Fixture.two_users []).
Proof. reflexivity. Qed.

Example handleVerification_email_taken :
  handleVerification (fun _ => None) Fixture.getSession Fixture.destroySession sessionKey
    (fun _ errors => String.concat "; " errors)
    (fun url toast init => redirect url init)
    (Fixture.request_with "bob@example.com")
    (mkSubmission StatusSuccess "u1")
    (mkWorld Fixture.two_users [])
  = (Throw (ConstraintError "UNIQUE constraint failed: user.email"),
     mkWorld Fixture.two_users []).
Proof. reflexivity. Qed.

(* ===================================================================== *)
(** ** Further properties of the guards and the loaders *)
(* ===================================================================== *)

Section GuardProperties.

Variable getSession : option string -> CookieSession.
Variable destroySession : CookieSession -> string.
Variable newURL : string -> URL.
Variable URLSearchParams_toString : list (string * string) -> string.

Local Abbreviation getUserId' := (getUserId getSession destroySession).
Local Abbreviation requireUserId' :=
  (requireUserId getSession destroySession newURL URLSearchParams_toString).
Local Abbreviation requireAnonymous' := (requireAnonymous getSession destroySession).
Local Abbreviation login_redirect' := (login_redirect newURL URLSearchParams_toString).

(** [requireUserId] and [requireAnonymous] in terms of what [getUserId]
    did. *)
Lemma requireUserId_unfold (now : Date) (request : Request)
    (redirectTo : RedirectTo) (db : DB) :
  requireUserId' now request redirectTo db
  = match fst (getUserId' now request db) with
    | Return (Some uid) =>
        if Js.truthy (Some uid) then (Return uid, db)
        else (Throw (ThrownResponse (login_redirect' request redirectTo)), db)
    | Return None =>
        (Throw (ThrownResponse (login_redirect' request redirectTo)), db)
    | Throw e => (Throw e, db)
    end.
Proof.
  unfold requireUserId, bind.
  pose proof (getUserId_reads_only getSession destroySession now request db) as Hdb.
  destruct (getUserId' now request db) as [[[uid|]|e] d]; simpl in *; subst d;
    try reflexivity.
  unfold Js.truthy, throw, ret. destruct (uid =? ""); reflexivity.
Qed.

Lemma requireAnonymous_unfold (now : Date) (request : Request) (db : DB) :
  requireAnonymous' now request db
  = match fst (getUserId' now request db) with
    | Return userId =>
        if Js.truthy userId
        then (Throw (ThrownResponse (redirect "/" (mkInit None None))), db)
        else (Return tt, db)
    | Throw e => (Throw e, db)
    end.
Proof.
  unfold requireAnonymous, bind.
  pose proof (getUserId_reads_only getSession destroySession now request db) as Hdb.
  destruct (getUserId' now request db) as [[userId|e] d]; simpl in *; subst d;
    try reflexivity.
  destruct (Js.truthy userId); reflexivity.
Qed.

(** What [getUserId] throws is the redirect that destroys the cookie
    session, never anything else. *)

(** X3: without a session id in the cookie, [requireUserId] throws the
    redirect to the login page.  With [redirectTo: null] the location is
    "/login" alone; by default it is "/login?" followed by the form
    encoding of the requested path and query as [redirectTo], whenever those
    are not empty. *)
Theorem requireUserId_unauthenticated
    (now : Date) (request : Request) (redirectTo : RedirectTo) (db : DB) :
  Js.truthy (cookie_get (getSession (req_cookie request)) sessionKey) = false ->
  requireUserId' now request redirectTo db
  = (Throw (ThrownResponse (login_redirect' request redirectTo)), db)
  /\ resp_status (login_redirect' request redirectTo) = 302%nat
  /\ resp_headers (login_redirect' request redirectTo) = []
  /\ resp_location (login_redirect' request (Some None)) = Some "/login"
  /\ (forall target,
        target = (url_pathname (newURL (req_url request))
                  ++ url_search (newURL (req_url request)))%string ->
        target <> "" ->
        URLSearchParams_toString [("redirectTo", target)] <> "" ->
        resp_location (login_redirect' request None)
        = Some ("/login?" ++ URLSearchParams_toString [("redirectTo", target)])%string).
Proof.
  intros Hc. rewrite requireUserId_unfold.
  assert (fst (getUserId' now request db) = Return None) as ->.
  { rewrite getUserId_outcome. now rewrite Hc. }
  repeat split.
  intros target -> Hne Henc.
  apply truthy_some in Hne. apply truthy_some in Henc.
  unfold login_redirect, join_truthy. simpl in *.
  rewrite Hne. simpl. unfold Js.truthy in Henc. rewrite Henc. reflexivity.
Qed.

(** X4: the two guards by the cookie.  [requireAnonymous] returns exactly
    when the cookie has no truthy session id, which is exactly when
    [requireUserId] throws the redirect to the login page.  With a truthy
    session id both guards throw what [getUserId] throws, the error of the
    relational query builder: [requireUserId] returns no user id and
    [requireAnonymous] does not reach its redirect to "/".  Neither guard
    writes the store. *)
Theorem guards_by_session_cookie
    (now : Date) (request : Request) (redirectTo : RedirectTo) (db : DB) :
  (fst (requireAnonymous' now request db) = Return tt
   <-> Js.truthy (cookie_get (getSession (req_cookie request)) sessionKey) = false)
  /\ (fst (requireAnonymous' now request db) = Return tt
      <-> fst (requireUserId' now request redirectTo db)
          = Throw (ThrownResponse (login_redirect' request redirectTo)))
  /\ (Js.truthy (cookie_get (getSession (req_cookie request)) sessionKey) = true ->
      fst (requireUserId' now request redirectTo db)
      = Throw (RelationError "sessions.user")
      /\ fst (requireAnonymous' now request db)
         = Throw (RelationError "sessions.user"))
  /\ (forall uid, fst (requireUserId' now request redirectTo db) <> Return uid)
  /\ snd (requireUserId' now request redirectTo db) = db
  /\ snd (requireAnonymous' now request db) = db.
Proof.
  rewrite requireUserId_unfold, requireAnonymous_unfold, getUserId_outcome.
  destruct (Js.truthy (cookie_get (getSession (req_cookie request)) sessionKey));
    simpl.
  - split; [split; discriminate|]. split; [split; discriminate|].
    split; [now split|]. split; [discriminate|now split].
  - split; [now split|]. split; [now split|].
    split; [discriminate|]. split; [discriminate|now split].
Qed.

End GuardProperties.

(** *** The note image resource *)

(** X8: the image loader never writes the store.  What it returns is the
    blob of an image row that has the id asked for, with status 200, that
    row's content type, and a Content-Length that is the decimal length of
    the body; what it throws is the 400 response when no id is given and the
    404 response when no image has the id. *)
Theorem note_image_loader_outcome (imageId : option string) (db : DB) :
  snd (NoteImageResource.loader imageId db) = db
  /\ (forall r, fst (NoteImageResource.loader imageId db) = Return r ->
        exists i,
          In i (noteImages db)
          /\ imageId = Some (noteImage_id i)
          /\ resp_status r = 200%nat
          /\ resp_body r = noteImage_blob i
          /\ In ("Content-Type", noteImage_contentType i) (resp_headers r)
          /\ In ("Content-Length",
                 NilEmpty.string_of_uint (Nat.to_uint (String.length (resp_body r))))
                (resp_headers r))
  /\ (Js.truthy imageId = false ->
      fst (NoteImageResource.loader imageId db)
      = Throw (ThrownResponse (mkResponse 400 None [] "Image ID is required")))
  /\ (forall id, imageId = Some id -> id <> "" ->
        (forall i, In i (noteImages db) -> noteImage_id i <> id) ->
        fst (NoteImageResource.loader imageId db)
        = Throw (ThrownResponse (mkResponse 404 None [] "Not found"))).
Proof.
  unfold NoteImageResource.loader, bind, truthy_value, invariantResponse.
  destruct (Js.truthy imageId) eqn:Ht.
  - destruct imageId as [id|]; [|discriminate]. cbn [ret gets].
    unfold findFirst.
    destruct (find _ (noteImages db)) as [i|] eqn:Hf; simpl.
    + apply find_some in Hf as [Hin Hid]. apply String.eqb_eq in Hid.
      split; [reflexivity|]. split; [|split; [discriminate|]].
      * intros r [= <-]. exists i. simpl. subst id.
        repeat split; auto.
      * intros id' [= <-] _ Hnone. exfalso. exact (Hnone i Hin Hid).
    + split; [reflexivity|]. split; [discriminate|]. split; [discriminate|].
      reflexivity.
  - split; [reflexivity|]. split; [discriminate|]. split; [reflexivity|].
    intros id -> Hne. apply truthy_some in Hne. congruence.
Qed.

Lemma find_pointwise {A} (f g : A -> bool) (l : list A) :
  (forall x, f x = g x) -> find f l = find g l.
Proof.
  intros H. induction l as [|a l IH]; simpl; [reflexivity|].
  now rewrite H, IH.
Qed.

(** X9: in a table that respects its primary key, the image loader serves
    every image under its own id: the response carries that row's blob and
    content type. *)
Theorem note_image_loader_serves_each_image (db : DB) (i : NoteImage) :
  Integrity.distinct (map noteImage_id (noteImages db)) = true ->
  In i (noteImages db) ->
  noteImage_id i <> "" ->
  exists r,
    NoteImageResource.loader (Some (noteImage_id i)) db = (Return r, db)
    /\ resp_body r = noteImage_blob i
    /\ In ("Content-Type", noteImage_contentType i) (resp_headers r).
Proof.
  intros Hpk Hin Hid. apply truthy_some in Hid.
  unfold NoteImageResource.loader, bind, truthy_value, invariantResponse.
  rewrite Hid. cbn [ret gets]. unfold findFirst.
  pose proof (find_by_key noteImage_id (fun _ => true) (noteImages db) i Hpk Hin)
    as Hf.
  assert (find (fun x => noteImage_id x =? noteImage_id i) (noteImages db) = Some i)
    as ->.
  { rewrite <- Hf. apply find_pointwise. intros x. now rewrite andb_true_r. }
  simpl. eexists. split; [reflexivity|]. simpl. auto.
Qed.

(** *** The reset-password verification handler *)

Lemma cookie_get_set (s : CookieSession) (key value : string) :
  cookie_get (cookie_set s key value) key = Some value.
Proof.
  unfold cookie_set. simpl. now rewrite String.eqb_refl.
Qed.

Lemma cookie_get_set_other (s : CookieSession) (key value other : string) :
  other <> key ->
  cookie_get (cookie_set s key value) other = cookie_get s other.
Proof.
  intros Hne. unfold cookie_set. simpl.
  assert ((key =? other) = false) as -> by (apply String.eqb_neq; congruence).
  induction s as [|[k v] s IH]; simpl; [reflexivity|].
  destruct (k =? key) eqn:Hk; simpl.
  - apply String.eqb_eq in Hk. subst k.
    assert ((key =? other) = false) as -> by (apply String.eqb_neq; congruence).
    exact IH.
  - destruct (k =? other); [reflexivity|exact IH].
Qed.

Section ResetPasswordProperties.

Variable getSession : option string -> CookieSession.
Variable commitSession : CookieSession -> string.
Variable resetPasswordUsernameSessionKey : string.
Variable submission_reply : Submission -> list (string * list string) -> string.
Variable bcrypt_hash : string -> nat -> string.

Local Abbreviation handler :=
  (ResetPassword.handleVerification getSession commitSession
     resetPasswordUsernameSessionKey submission_reply).

(** The verify session the handler commits for a user. *)
Local Abbreviation session_for u :=
  (cookie_set (getSession None) resetPasswordUsernameSessionKey (user_username u)).

Lemma reset_handler_unfold (submission : Submission) (db : DB) :
  handler submission db
  = match submission_status submission with
    | StatusError =>
        (Throw (InvariantError "Submission should be successful by now"), db)
    | StatusSuccess =>
        (Return
           match find (fun u => (user_email u =? submission_target submission)
                                || (user_username u =? submission_target submission))%bool
                      (users db) with
           | None => mkResponse 400 None []
                       (submission_reply submission [("code", ["Invalid code"])])
           | Some u => redirect "/reset-password"
                         (mkInit None (Some [("set-cookie", commitSession (session_for u))]))
           end, db)
    end.
Proof.
  unfold ResetPassword.handleVerification, bind, invariant.
  destruct (submission_status submission); cbn [ret throw]; [|reflexivity].
  unfold gets, findFirst. simpl.
  destruct (find _ (users db)); reflexivity.
Qed.

(** X10: the reset-password handler never writes the store.  When it
    returns, either no user has the target as email or username and the
    answer is the 400 response with the field error on the code, or the
    answer is the redirect to "/reset-password" that commits a fresh verify
    session holding the username of a user whose email or username is the
    target. *)
Theorem reset_handler_outcome (submission : Submission) (db : DB) :
  snd (handler submission db) = db
  /\ forall r, fst (handler submission db) = Return r ->
       ((forall u, In u (users db) ->
                   user_email u <> submission_target submission
                   /\ user_username u <> submission_target submission)
        /\ r = mkResponse 400 None []
                 (submission_reply submission [("code", ["Invalid code"])]))
       \/ exists u,
            In u (users db)
            /\ (user_email u = submission_target submission
                \/ user_username u = submission_target submission)
            /\ r = redirect "/reset-password"
                     (mkInit None (Some [("set-cookie", commitSession (session_for u))]))
            /\ cookie_get (session_for u) resetPasswordUsernameSessionKey
               = Some (user_username u).
Proof.
  rewrite reset_handler_unfold.
  destruct (submission_status submission); [|split; [reflexivity|discriminate]].
  split; [reflexivity|]. cbn [fst].
  destruct (find _ (users db)) as [u|] eqn:Hf; intros r [= <-].
  - right. apply find_some in Hf as [Hin Hcond]. exists u.
    split; [exact Hin|]. split; [|split; [reflexivity|apply cookie_get_set]].
    apply orb_prop in Hcond as [H|H]; apply String.eqb_eq in H; auto.
  - left. split; [|reflexivity].
    intros u Hin. pose proof (find_none _ _ Hf u Hin) as Hcond. simpl in Hcond.
    apply orb_false_elim in Hcond as [H1 H2].
    apply String.eqb_neq in H1, H2. now split.
Qed.

(** X11: the username the handler commits always resolves in the next step:
    on the same store, [resetUserPassword] with that username finds a user
    of that username and returns it instead of failing with "User not
    found". *)
Theorem reset_handler_username_resolves
    (submission : Submission) (db : DB) (r : Response) (password : string) :
  fst (handler submission db) = Return r ->
  resp_status r = 302%nat ->
  exists u u',
    In u (users db)
    /\ r = redirect "/reset-password"
             (mkInit None (Some [("set-cookie", commitSession (session_for u))]))
    /\ fst (resetUserPassword bcrypt_hash (user_username u) password db) = Return u'
    /\ user_username u' = user_username u.
Proof.
  rewrite reset_handler_unfold.
  destruct (submission_status submission); [|discriminate]. cbn [fst].
  destruct (find _ (users db)) as [u|] eqn:Hf; intros [= <-]; [|discriminate].
  intros _. apply find_some in Hf as [Hin _].
  destruct (find (fun x => user_username x =? user_username u) (users db))
    as [u'|] eqn:Hf'.
  - exists u, u'. split; [exact Hin|]. split; [reflexivity|].
    rewrite (resetUserPassword_rewrites_every_row bcrypt_hash _ password db Hf').
    split; [reflexivity|].
    apply find_some in Hf' as [_ H]. now apply String.eqb_eq.
  - pose proof (find_none _ _ Hf' u Hin) as H. simpl in H.
    now rewrite String.eqb_refl in H.
Qed.

End ResetPasswordProperties.

(** *** Keys, and stores that stay well formed *)

Lemma existsb_map_key {A} (key : A -> string) (x : string) (l : list A) :
  existsb (fun y => y =? x) (map key l) = existsb (fun a => key a =? x) l.
Proof.
  induction l as [|a l IH]; simpl; [reflexivity|]. now rewrite IH.
Qed.

Lemma distinct_snoc (l : list string) (x : string) :
  Integrity.distinct l = true ->
  existsb (fun y => y =? x) l = false ->
  Integrity.distinct (l ++ [x]) = true.
Proof.
  induction l as [|a l IH]; simpl; [reflexivity|].
  intros Hd Hx.
  apply andb_prop in Hd as [Ha Hd].
  apply orb_false_elim in Hx as [Hax Hx].
  rewrite IH by assumption.
  rewrite existsb_app. simpl. rewrite Hax, orb_false_r.
  apply negb_true_iff in Ha. now rewrite Ha.
Qed.

Lemma distinct_map_snoc {A} (key : A -> string) (l : list A) (a : A) :
  Integrity.distinct (map key l) = true ->
  existsb (fun y => key y =? key a) l = false ->
  Integrity.distinct (map key (l ++ [a])) = true.
Proof.
  intros Hd Hx. rewrite map_app. simpl. apply distinct_snoc; [exact Hd|].
  now rewrite existsb_map_key.
Qed.

Lemma distinct_by_snoc {A} (eqb : A -> A -> bool) (l : list A) (x : A) :
  WellFormed.distinct_by eqb l = true ->
  existsb (fun y => eqb y x) l = false ->
  WellFormed.distinct_by eqb (l ++ [x]) = true.
Proof.
  induction l as [|a l IH]; simpl; [reflexivity|].
  intros Hd Hx.
  apply andb_prop in Hd as [Ha Hd].
  apply orb_false_elim in Hx as [Hax Hx].
  rewrite IH by assumption.
  rewrite existsb_app. simpl. rewrite Hax, orb_false_r.
  apply negb_true_iff in Ha. now rewrite Ha.
Qed.

Lemma distinct_filter {A} (key : A -> string) (p : A -> bool) (l : list A) :
  Integrity.distinct (map key l) = true ->
  Integrity.distinct (map key (filter p l)) = true.
Proof.
  induction l as [|a l IH]; simpl; [reflexivity|].
  intros Hd. apply andb_prop in Hd as [Ha Hd].
  destruct (p a); simpl; [|now apply IH].
  rewrite IH by assumption. rewrite andb_true_r.
  apply negb_true_iff in Ha. apply negb_true_iff.
  apply not_true_is_false. intros Hex.
  apply existsb_exists in Hex as (y & Hy & Heq).
  apply in_map_iff in Hy as (b & <- & Hb). apply filter_In in Hb as [Hb _].
  assert (existsb (String.eqb (key a)) (map key l) = true) as Hc.
  { apply existsb_exists. exists (key b). split; [now apply in_map|exact Heq]. }
  congruence.
Qed.

Lemma existsb_snoc_mono {A} (p : A -> bool) (l : list A) (a : A) :
  existsb p l = true -> existsb p (l ++ [a]) = true.
Proof. intros H. now rewrite existsb_app, H. Qed.

Lemma forallb_mono {A} (p q : A -> bool) (l : list A) :
  (forall x, p x = true -> q x = true) ->
  forallb p l = true -> forallb q l = true.
Proof.
  intros Hpq H. rewrite forallb_forall in *. auto.
Qed.

Lemma find_app_miss {A} (p : A -> bool) (l r : list A) :
  existsb p l = false -> find p (l ++ r) = find p r.
Proof.
  induction l as [|a l IH]; simpl; [reflexivity|].
  intros H. apply orb_false_elim in H as [-> H]. now apply IH.
Qed.

(** What the callback of [signup] has checked and written when it
    returns. *)
Lemma signup_tx_returns_fresh (toLowerCase : string -> string) (clock : Clock)
    (uid sid : Id)
    (email username hashedPassword : string) (name : option string)
    (db db' : DB) (info : SessionInfo) :
  signup_tx toLowerCase clock uid sid email username hashedPassword name db
  = (Return info, db') ->
  existsb (fun u => user_id u =? uid) (users db) = false
  /\ existsb (fun u => user_email u =? toLowerCase email) (users db) = false
  /\ existsb (fun u => user_username u =? toLowerCase username) (users db) = false
  /\ existsb (fun s => session_id s =? sid) (sessions db) = false
  /\ exists role,
       findFirst (fun r => role_name r =? "user") (roles db) = Some role
       /\ info = returning_session (new_session clock sid uid)
       /\ db' = mkDB
            (users db ++ [new_user toLowerCase clock uid email username name])
            (notes db) (noteImages db) (userImages db)
            (passwords db ++ [mkPassword hashedPassword uid])
            (sessions db ++ [new_session clock sid uid])
            (roles db) (connections db)
            (rolesToUsers db ++ [mkRoleUser (role_id role) uid]).
Proof.
  unfold signup_tx, bind, insert_users.
  repeat step_if.
  unfold gets, invariant. simpl.
  destruct (findFirst _ (roles db)) as [role|] eqn:Hrole; simpl; [|discriminate].
  unfold insert_passwords, insert_rolesToUsers, insert_sessions, ret. simpl.
  repeat step_if.
  intros [= <- <-].
  do 4 (split; [first [assumption|reflexivity]|]).
  exists role. repeat split.
Qed.

Lemma signup_returns_inv (toLowerCase : string -> string)
    (bcrypt_hash : string -> nat -> string)
    (clock : Clock) (uid sid : Id)
    (email username password : string) (name : option string)
    (db db' : DB) (info : SessionInfo) :
  signup toLowerCase bcrypt_hash clock uid sid email username password name db
  = (Return info, db') ->
  signup_tx toLowerCase clock uid sid email username
    (getPasswordHash bcrypt_hash password) name db
  = (Return info, db').
Proof.
  unfold signup, bind. intros Hrun.
  destruct (transaction _ db) as [[i|e] d] eqn:Htx; [|discriminate].
  unfold ret in Hrun. injection Hrun as <- <-.
  now apply transaction_commits.
Qed.

(** A store written by a flow that only appended a user, child rows of
    existing users, and nothing else, keeps its foreign keys. *)
Lemma foreign_keys_after_append (db : DB) (u : User)
    (ui : list UserImage) (pw : list Password) (ss : list Session)
    (cs : list Connection) (ru : list RoleUser) :
  Integrity.foreign_keys db = true ->
  forallb (fun r => userImage_userId r =? user_id u) ui = true ->
  forallb (fun r => password_userId r =? user_id u) pw = true ->
  forallb (fun r => session_userId r =? user_id u) ss = true ->
  forallb (fun r => connection_userId r =? user_id u) cs = true ->
  forallb (fun r => has_role (roleUser_roleId r) db
                    && (roleUser_userId r =? user_id u))%bool ru = true ->
  Integrity.foreign_keys
    (mkDB (users db ++ [u]) (notes db) (noteImages db) (userImages db ++ ui)
          (passwords db ++ pw) (sessions db ++ ss) (roles db)
          (connections db ++ cs) (rolesToUsers db ++ ru)) = true.
Proof.
  intros Hfk Hui Hpw Hss Hcs Hru.
  unfold Integrity.foreign_keys, Integrity.session_fk, has_user, has_role in *.
  simpl.
  repeat (apply andb_prop in Hfk as [Hfk ?]).
  assert (Hold : forall id,
             existsb (fun x => user_id x =? id) (users db) = true ->
             existsb (fun x => user_id x =? id) (users db ++ [u]) = true).
  { intros id. apply existsb_snoc_mono. }
  assert (Hnew : forall id, (id =? user_id u) = true ->
             existsb (fun x => user_id x =? id) (users db ++ [u]) = true).
  { intros id Hid. rewrite existsb_app. simpl.
    rewrite String.eqb_sym, Hid. now rewrite orb_true_r. }
  rewrite !forallb_app.
  repeat (apply andb_true_intro; split);
    try (eapply forallb_mono; [|eassumption]; simpl; intros x Hx; auto; fail).
  - eapply forallb_mono; [|eassumption]. simpl. intros x Hx.
    apply andb_prop in Hx as [Hr Hu]. now rewrite Hr, Hold.
  - eapply forallb_mono; [|eassumption]. simpl. intros x Hx.
    apply andb_prop in Hx as [Hr Hu]. now rewrite Hr, Hnew.
Qed.

(** *** signup, further *)

Section SignupProperties.

Variable toLowerCase : string -> string.
Variable bcrypt_hash : string -> nat -> string.

Local Abbreviation signup' := (signup toLowerCase bcrypt_hash).

(** X12: [signup] keeps a well-formed store well formed, whether it returns
    or throws: the primary keys, the unique email, username and provider
    indexes, and every foreign key still hold afterwards. *)
Theorem signup_keeps_store_well_formed (clock : Clock) (uid sid : Id)
    (email username password : string) (name : option string) (db : DB) :
  WellFormed.well_formed db = true ->
  WellFormed.well_formed
    (snd (signup' clock uid sid email username password name db)) = true.
Proof.
  intros Hwf.
  destruct (signup' clock uid sid email username password name db)
    as [[info|e] db'] eqn:Hrun; simpl.
  - apply signup_returns_inv, signup_tx_returns_fresh in Hrun
      as (Hid & Hemail & Huname & Hsid & role & Hrole & _ & ->).
    unfold WellFormed.well_formed in *.
    apply andb_prop in Hwf as [Hkeys Hfk].
    apply andb_true_intro. split.
    + unfold WellFormed.unique_keys in *. simpl.
      repeat (apply andb_prop in Hkeys as [Hkeys ?]).
      repeat (apply andb_true_intro; split); try assumption;
        apply distinct_map_snoc; assumption.
    + pose proof (has_role_found _ _ Hrole) as Hhas.
      rewrite <- (app_nil_r (userImages db)), <- (app_nil_r (connections db)).
      apply foreign_keys_after_append; simpl; auto;
        try (now rewrite String.eqb_refl).
      now rewrite Hhas, String.eqb_refl.
  - unfold signup, bind in Hrun.
    destruct (transaction _ db) as [[i|e'] d] eqn:Htx; [discriminate|].
    injection Hrun as <- <-.
    apply transaction_rolls_back in Htx. now subst d.
Qed.

End SignupProperties.

(** A signup whose user id, lowercased email or lowercased username is
    taken throws the constraint error of its first statement. *)
Lemma signup_conflict (toLowerCase : string -> string)
    (bcrypt_hash : string -> nat -> string)
    (clock : Clock) (uid sid : Id)
    (email username password : string) (name : option string) (db : DB) :
  (existsb (fun u => user_id u =? uid) (users db)
   || existsb (fun u => user_email u =? toLowerCase email) (users db)
   || existsb (fun u => user_username u =? toLowerCase username) (users db))%bool
  = true ->
  exists c,
    signup toLowerCase bcrypt_hash clock uid sid email username password name db
    = (Throw (ConstraintError c), db).
Proof.
  intros Hc. unfold signup.
  assert (exists c d,
            signup_tx toLowerCase clock uid sid email username
              (getPasswordHash bcrypt_hash password) name db
            = (Throw (ConstraintError c), d)) as (c & d & Htx).
  { unfold signup_tx, bind, insert_users. simpl.
    destruct (existsb (fun u => user_username u =? toLowerCase username) (users db));
      [eexists; eexists; reflexivity|].
    destruct (existsb (fun u => user_email u =? toLowerCase email) (users db));
      [eexists; eexists; reflexivity|].
    destruct (existsb (fun u => user_id u =? uid) (users db));
      [eexists; eexists; reflexivity|discriminate]. }
  exists c. apply bind_throw. exact (transaction_throws _ _ Htx).
Qed.

(** X15: emails and usernames are unique up to [toLowerCase].  When a
    stored user already has the lowercase form of the email or of the
    username, [signup] throws a constraint error and writes nothing,
    whatever the casing of the input. *)
Theorem signup_rejects_taken_email_or_username
    (toLowerCase : string -> string)
    (bcrypt_hash : string -> nat -> string) (clock : Clock) (uid sid : Id)
    (email username password : string) (name : option string)
    (db : DB) (u : User) :
  In u (users db) ->
  user_email u = toLowerCase email
  \/ user_username u = toLowerCase username ->
  exists c,
    signup toLowerCase bcrypt_hash clock uid sid email username password name db
    = (Throw (ConstraintError c), db).
Proof.
  intros Hin Htaken. apply signup_conflict.
  destruct Htaken as [H|H].
  - assert (existsb (fun x => user_email x =? toLowerCase email) (users db) = true)
      as -> by (apply existsb_exists; exists u; split; [auto|now apply String.eqb_eq]).
    now rewrite orb_true_r.
  - assert (existsb (fun x => user_username x =? toLowerCase username) (users db)
            = true)
      as -> by (apply existsb_exists; exists u; split; [auto|now apply String.eqb_eq]).
    now rewrite orb_true_r.
Qed.

(** X16: signing up twice with the same email in any casing fails the second
    time: after a signup that returned, a signup whose email has the same
    lowercase form throws a constraint error and leaves the store as the
    first signup left it. *)
Theorem signup_twice_same_email_fails
    (toLowerCase : string -> string)
    (bcrypt_hash : string -> nat -> string)
    (clock clock2 : Clock) (uid sid uid2 sid2 : Id)
    (email username password email2 username2 password2 : string)
    (name name2 : option string) (db db' : DB) (info : SessionInfo) :
  signup toLowerCase bcrypt_hash clock uid sid email username password name db
  = (Return info, db') ->
  toLowerCase email2 = toLowerCase email ->
  exists c,
    signup toLowerCase bcrypt_hash clock2 uid2 sid2 email2 username2 password2
      name2 db'
    = (Throw (ConstraintError c), db').
Proof.
  intros Hrun Hsame.
  apply signup_returns_inv, signup_tx_returns_fresh in Hrun
    as (_ & _ & _ & _ & role & _ & _ & ->).
  apply signup_conflict. simpl. rewrite Hsame.
  assert (existsb (fun u => user_email u =? toLowerCase email)
            (users db ++ [new_user toLowerCase clock uid email username name])
          = true) as ->.
  { rewrite existsb_app. simpl. now rewrite String.eqb_refl, orb_true_r. }
  now rewrite orb_true_r.
Qed.

(** *** signupWithConnection, further *)

Section SignupWithConnectionProperties.

Variable toLowerCase : string -> string.
Variable downloadFile : string -> Thrown + File.

Local Abbreviation signupWithConnection' := (signupWithConnection toLowerCase downloadFile).

Local Abbreviation avatar_rows' := (avatar_rows downloadFile).

(** What the callback of [signupWithConnection] has checked and written
    when it returns. *)
Lemma signupWithConnection_tx_returns_fresh (clock : Clock) (uid cid iid sid : Id)
    (email username : string) (name : option string)
    (providerId providerName : string) (imageUrl : option string)
    (db db' : DB) (info : SessionInfo) :
  signupWithConnection_tx toLowerCase downloadFile clock uid cid iid sid email username name
    providerId providerName imageUrl db = (Return info, db') ->
  existsb (fun u => user_id u =? uid) (users db) = false
  /\ existsb (fun u => user_email u =? toLowerCase email) (users db) = false
  /\ existsb (fun u => user_username u =? toLowerCase username) (users db) = false
  /\ existsb (fun c => connection_id c =? cid) (connections db) = false
  /\ existsb (fun c => (connection_providerName c =? providerName)
                       && (connection_providerId c =? providerId))%bool
             (connections db) = false
  /\ existsb (fun s => session_id s =? sid) (sessions db) = false
  /\ (avatar_rows' clock uid iid imageUrl <> [] ->
      existsb (fun i => userImage_id i =? iid) (userImages db) = false)
  /\ exists role,
       findFirst (fun r => role_name r =? "user") (roles db) = Some role
       /\ info = returning_session (new_session clock sid uid)
       /\ db' = mkDB
            (users db ++ [new_user toLowerCase clock uid email username name])
            (notes db) (noteImages db)
            (userImages db ++ avatar_rows' clock uid iid imageUrl)
            (passwords db)
            (sessions db ++ [new_session clock sid uid])
            (roles db)
            (connections db
             ++ [new_connection clock cid uid providerName providerId])
            (rolesToUsers db ++ [mkRoleUser (role_id role) uid]).
Proof.
  unfold signupWithConnection_tx, avatar_rows.
  destruct imageUrl as [url|];
    [destruct (Js.truthy (Some url)) eqn:Ht;
       [destruct (downloadFile url) as [e|file] eqn:Hdl|]|];
    unfold bind, insert_users, await, throw, ret;
    repeat step_if;
    unfold gets, invariant; simpl;
    (destruct (findFirst _ (roles db)) as [role|] eqn:Hrole; simpl; [|discriminate]);
    unfold insert_rolesToUsers, insert_connections, insert_userImages,
      insert_sessions, ret, throw; simpl;
    repeat step_if;
    intros [= <- <-];
    do 6 (split; [first [assumption|reflexivity]|]);
    (split; [intros H; first [assumption|reflexivity|now elim H]|]);
    exists role; rewrite ?app_nil_r; repeat split.
Qed.

Lemma signupWithConnection_returns_inv (clock : Clock) (uid cid iid sid : Id)
    (email username : string) (name : option string)
    (providerId providerName : string) (imageUrl : option string)
    (db db' : DB) (info : SessionInfo) :
  signupWithConnection' clock uid cid iid sid email username name
    providerId providerName imageUrl db = (Return info, db') ->
  signupWithConnection_tx toLowerCase downloadFile clock uid cid iid sid email username name
    providerId providerName imageUrl db = (Return info, db').
Proof.
  unfold signupWithConnection, bind. intros Hrun.
  destruct (transaction _ db) as [[i|e] d] eqn:Htx; [|discriminate].
  unfold ret in Hrun. injection Hrun as <- <-.
  now apply transaction_commits.
Qed.

(** X18: [signupWithConnection] is all or nothing: when it throws, at
    whichever statement, the store is exactly as it was before the call. *)
Theorem signupWithConnection_all_or_nothing (clock : Clock) (uid cid iid sid : Id)
    (email username : string) (name : option string)
    (providerId providerName : string) (imageUrl : option string)
    (db db' : DB) (e : Thrown) :
  signupWithConnection' clock uid cid iid sid email username name
    providerId providerName imageUrl db = (Throw e, db') ->
  db' = db.
Proof.
  unfold signupWithConnection, bind. intros Hrun.
  destruct (transaction _ db) as [[i|e'] d] eqn:Htx; [discriminate|].
  injection Hrun as <- <-.
  now apply transaction_rolls_back in Htx.
Qed.

(** X19: an external identity is bound to one account at most.  When a
    connection row already has the provider name and provider id,
    [signupWithConnection] never returns: it throws and writes nothing, so
    no second user is created for that identity. *)
Theorem signupWithConnection_rejects_bound_identity
    (clock : Clock) (uid cid iid sid : Id)
    (email username : string) (name : option string)
    (providerId providerName : string) (imageUrl : option string)
    (db : DB) (c : Connection) :
  In c (connections db) ->
  connection_providerName c = providerName ->
  connection_providerId c = providerId ->
  exists e,
    signupWithConnection' clock uid cid iid sid email username name
      providerId providerName imageUrl db = (Throw e, db).
Proof.
  intros Hin Hname Hpid.
  destruct (signupWithConnection' clock uid cid iid sid email username name
              providerId providerName imageUrl db) as [[info|e] db'] eqn:Hrun.
  - exfalso.
    apply signupWithConnection_returns_inv, signupWithConnection_tx_returns_fresh
      in Hrun as (_ & _ & _ & _ & Hprov & _).
    assert (existsb (fun c0 => (connection_providerName c0 =? providerName)
                               && (connection_providerId c0 =? providerId))%bool
                    (connections db) = true) as Hex.
    { apply existsb_exists. exists c. split; [exact Hin|].
      subst. now rewrite !String.eqb_refl. }
    congruence.
  - exists e. f_equal.
    unfold signupWithConnection, bind in Hrun.
    destruct (transaction _ db) as [[i|e'] d] eqn:Htx; [discriminate|].
    injection Hrun as <- <-.
    now apply transaction_rolls_back in Htx.
Qed.

(** X20: a connection signup that returns has appended one User with the
    lowercased email and username, one role assignment of that user to the
    role named "user", one Connection of that user with the given provider
    name and id, one Session of that user, and a user image exactly when a
    URL was given and downloaded; it creates no Password row.  Every
    timestamp stored is its own reading of the clock cut down to the whole
    second, and the session expires at the whole second of the instant
    [getSessionExpirationDate] read, plus 30 days. *)
Theorem signupWithConnection_creates_account
    (clock : Clock) (uid cid iid sid : Id)
    (email username : string) (name : option string)
    (providerId providerName : string) (imageUrl : option string)
    (db db' : DB) (info : SessionInfo) :
  signupWithConnection' clock uid cid iid sid email username name
    providerId providerName imageUrl db = (Return info, db') ->
  exists role,
    In role (roles db) /\ role_name role = "user"
    /\ users db'
       = users db
         ++ [mkUser uid (toLowerCase email) (toLowerCase username) name
               (stored_timestamp (at_user_createdAt clock))
               (stored_timestamp (at_user_updatedAt clock))]
    /\ rolesToUsers db' = rolesToUsers db ++ [mkRoleUser (role_id role) uid]
    /\ connections db'
       = connections db
         ++ [mkConnection cid providerName providerId
               (stored_timestamp (at_connection_createdAt clock))
               (stored_timestamp (at_connection_updatedAt clock)) uid]
    /\ sessions db'
       = sessions db
         ++ [mkSession sid
               (stored_timestamp (at_expiration clock) + SESSION_EXPIRATION_TIME)
               (stored_timestamp (at_session_createdAt clock))
               (stored_timestamp (at_session_updatedAt clock)) uid]
    /\ info = mkSessionInfo sid
                (stored_timestamp (at_expiration clock) + SESSION_EXPIRATION_TIME)
    /\ userImages db' = userImages db ++ avatar_rows' clock uid iid imageUrl
    /\ passwords db' = passwords db
    /\ notes db' = notes db /\ noteImages db' = noteImages db
    /\ roles db' = roles db.
Proof.
  intros Hrun.
  apply signupWithConnection_returns_inv, signupWithConnection_tx_returns_fresh
    in Hrun as (_ & _ & _ & _ & _ & _ & _ & role & Hrole & -> & ->).
  apply find_some in Hrole as [Hin Hname]. apply String.eqb_eq in Hname.
  exists role. unfold new_session, stored_session. simpl.
  rewrite stored_expiration.
  repeat split; auto.
Qed.

(** X21: [signupWithConnection] keeps a well-formed store well formed,
    whether it returns or throws. *)
Theorem signupWithConnection_keeps_store_well_formed
    (clock : Clock) (uid cid iid sid : Id)
    (email username : string) (name : option string)
    (providerId providerName : string) (imageUrl : option string) (db : DB) :
  WellFormed.well_formed db = true ->
  WellFormed.well_formed
    (snd (signupWithConnection' clock uid cid iid sid email username name
            providerId providerName imageUrl db)) = true.
Proof.
  intros Hwf.
  destruct (signupWithConnection' clock uid cid iid sid email username name
              providerId providerName imageUrl db) as [[info|e] db'] eqn:Hrun; simpl.
  - apply signupWithConnection_returns_inv, signupWithConnection_tx_returns_fresh
      in Hrun as (Hid & Hemail & Huname & Hcid & Hprov & Hsid & Hiid
                  & role & Hrole & _ & ->).
    unfold WellFormed.well_formed in *.
    apply andb_prop in Hwf as [Hkeys Hfk].
    apply andb_true_intro. split.
    + unfold WellFormed.unique_keys in *. simpl.
      repeat (apply andb_prop in Hkeys as [Hkeys ?]).
      repeat (apply andb_true_intro; split);
        try (apply distinct_map_snoc; assumption).
      * rewrite map_app. apply distinct_by_snoc; [assumption|].
        rewrite <- Hprov. clear. induction (connections db) as [|c l IH];
          simpl; [reflexivity|]. now rewrite IH.
      * unfold avatar_rows in *.
        destruct imageUrl as [url|]; [|now rewrite app_nil_r].
        destruct (Js.truthy (Some url)); [|now rewrite app_nil_r].
        destruct (downloadFile url) as [e|file]; [now rewrite app_nil_r|].
        apply distinct_map_snoc; [assumption|]. apply Hiid. discriminate.
    + pose proof (has_role_found _ _ Hrole) as Hhas.
      rewrite <- (app_nil_r (passwords db)).
      apply foreign_keys_after_append; simpl; auto;
        try (now rewrite String.eqb_refl).
      * unfold avatar_rows.
        destruct imageUrl as [url|]; [|reflexivity].
        destruct (Js.truthy (Some url)); [|reflexivity].
        destruct (downloadFile url) as [e|file]; [reflexivity|].
        simpl. now rewrite String.eqb_refl.
      * now rewrite Hhas, String.eqb_refl.
  - unfold signupWithConnection, bind in Hrun.
    destruct (transaction _ db) as [[i|e'] d] eqn:Htx; [discriminate|].
    injection Hrun as <- <-.
    apply transaction_rolls_back in Htx. now subst d.
Qed.

End SignupWithConnectionProperties.

(** *** resetUserPassword, further *)

Section ResetUserPasswordProperties.

Variable bcrypt_hash : string -> nat -> string.

(** X22: [resetUserPassword] updates and never inserts.  When the user is
    found, the password table keeps its number of rows, every row it has
    afterwards carries the new hash and that user's id, and no other table
    changes; in particular a store without password rows is left as it
    was. *)
Theorem resetUserPassword_updates_in_place
    (username password : string) (db : DB) (u : User) :
  findFirst (fun x => user_username x =? username) (users db) = Some u ->
  exists db',
    resetUserPassword bcrypt_hash username password db = (Return u, db')
    /\ length (passwords db') = length (passwords db)
    /\ (forall p, In p (passwords db') ->
                  p = mkPassword (getPasswordHash bcrypt_hash password) (user_id u))
    /\ users db' = users db /\ sessions db' = sessions db
    /\ connections db' = connections db /\ rolesToUsers db' = rolesToUsers db
    /\ notes db' = notes db /\ noteImages db' = noteImages db
    /\ userImages db' = userImages db /\ roles db' = roles db
    /\ (passwords db = [] -> db' = db).
Proof.
  intros Hu. eexists.
  split; [apply (resetUserPassword_rewrites_every_row bcrypt_hash _ password db Hu)|].
  simpl. split; [apply length_map|].
  split; [intros p Hp; apply in_map_iff in Hp as (q & <- & _); reflexivity|].
  repeat split.
  intros Hnil. unfold set_passwords. rewrite Hnil. simpl.
  destruct db; simpl in *. now subst.
Qed.

End ResetUserPasswordProperties.

(** *** logout, further *)

Section LogoutProperties.

Variable getSession : option string -> CookieSession.
Variable destroySession : CookieSession -> string.
Variable safeRedirect : string -> string.
Variable combineHeaders : list (option Headers) -> Headers.

Local Abbreviation logout' :=
  (logout getSession destroySession safeRedirect combineHeaders).

(** The store after [logout]. *)
Lemma logout_store (fault : bool) (request : Request)
    (redirectTo : option string) (responseInit : option ResponseInit) (db : DB) :
  snd (logout' fault request redirectTo responseInit db)
  = match cookie_get (getSession (req_cookie request)) sessionKey with
    | Some sid =>
        if (Js.truthy (Some sid) && negb fault)%bool
        then set_sessions (filter (fun s => negb (session_id s =? sid))) db
        else db
    | None => db
    end.
Proof.
  unfold logout, bind, catch_ignore, delete_sessions_where, throw.
  destruct (cookie_get _ sessionKey) as [sid|]; [|reflexivity].
  destruct (Js.truthy (Some sid)); [|reflexivity].
  destruct fault; reflexivity.
Qed.

(** X24: [logout] writes nothing but the session table, and there it removes
    at most the rows with the session id of the cookie: every other session
    stays, and when the store runs the delete the session of the cookie is
    gone. *)
Theorem logout_removes_only_that_session (fault : bool) (request : Request)
    (redirectTo : option string) (responseInit : option ResponseInit)
    (db : DB) (sid : string) :
  cookie_get (getSession (req_cookie request)) sessionKey = Some sid ->
  sid <> "" ->
  let db' := snd (logout' fault request redirectTo responseInit db) in
  users db' = users db /\ passwords db' = passwords db
  /\ connections db' = connections db /\ rolesToUsers db' = rolesToUsers db
  /\ notes db' = notes db /\ noteImages db' = noteImages db
  /\ userImages db' = userImages db /\ roles db' = roles db
  /\ (forall s, In s (sessions db) -> session_id s <> sid -> In s (sessions db'))
  /\ (forall s, In s (sessions db') -> In s (sessions db))
  /\ (fault = false -> forall s, In s (sessions db') -> session_id s <> sid).
Proof.
  intros Hc Hne db'. subst db'. rewrite logout_store, Hc.
  apply truthy_some in Hne. rewrite Hne.
  destruct fault; simpl.
  - repeat split; auto. discriminate.
  - repeat split; auto.
    + intros s Hs Hid. apply filter_In. split; [exact Hs|].
      apply negb_true_iff. now apply String.eqb_neq.
    + intros s Hs. now apply filter_In in Hs.
    + intros _ s Hs. apply filter_In in Hs as [_ Hs].
      apply negb_true_iff in Hs. now apply String.eqb_neq.
Qed.

End LogoutProperties.

(** *** Deleting a user, further *)

Lemma distinct_by_filter {A} (eqb : A -> A -> bool) (p : A -> bool) (l : list A) :
  WellFormed.distinct_by eqb l = true ->
  WellFormed.distinct_by eqb (filter p l) = true.
Proof.
  induction l as [|a l IH]; simpl; [reflexivity|].
  intros Hd. apply andb_prop in Hd as [Ha Hd].
  destruct (p a); simpl; [|now apply IH].
  rewrite IH by assumption. rewrite andb_true_r.
  apply negb_true_iff in Ha. apply negb_true_iff.
  apply not_true_is_false. intros Hex.
  apply existsb_exists in Hex as (y & Hy & Heq).
  apply filter_In in Hy as [Hy _].
  assert (existsb (eqb a) l = true) as Hc
    by (apply existsb_exists; now exists y).
  congruence.
Qed.

Lemma distinct_by_map_filter {A B} (eqb : B -> B -> bool) (key : A -> B)
    (p : A -> bool) (l : list A) :
  WellFormed.distinct_by eqb (map key l) = true ->
  WellFormed.distinct_by eqb (map key (filter p l)) = true.
Proof.
  induction l as [|a l IH]; simpl; [reflexivity|].
  intros Hd. apply andb_prop in Hd as [Ha Hd].
  destruct (p a); simpl; [|now apply IH].
  rewrite IH by assumption. rewrite andb_true_r.
  apply negb_true_iff in Ha. apply negb_true_iff.
  apply not_true_is_false. intros Hex.
  apply existsb_exists in Hex as (y & Hy & Heq).
  apply in_map_iff in Hy as (b & <- & Hb). apply filter_In in Hb as [Hb _].
  assert (existsb (eqb (key a)) (map key l) = true) as Hc.
  { apply existsb_exists. exists (key b). split; [now apply in_map|exact Heq]. }
  congruence.
Qed.

(** The store after the delete of users, table by table. *)
Lemma delete_users_where_tables (where_ : User -> bool) (db : DB) :
  exists pn pni pui ppw pss pcs pru,
    delete_users_where where_ db
    = (Return tt,
       mkDB (filter (fun x => negb (where_ x)) (users db))
            (filter pn (notes db)) (filter pni (noteImages db))
            (filter pui (userImages db)) (filter ppw (passwords db))
            (filter pss (sessions db)) (roles db)
            (filter pcs (connections db)) (filter pru (rolesToUsers db))).
Proof.
  unfold delete_users_where.
  unfold note_owner_onDelete, userImage_user_onDelete, password_user_onDelete,
    session_user_onDelete, connection_user_onDelete, roleUser_user_onDelete,
    noteImage_note_onDelete, on_delete.
  rewrite !partition_as_filter.
  do 7 eexists. reflexivity.
Qed.

(** X26: deleting an existing user keeps a well-formed store well formed:
    the keys and unique indexes still hold and, the cascade having removed
    every row that referred to the user, so does every foreign key. *)
Theorem delete_user_keeps_store_well_formed (db db' : DB) (u : User) :
  In u (users db) ->
  WellFormed.well_formed db = true ->
  delete_users_where (fun x => user_id x =? user_id u) db = (Return tt, db') ->
  WellFormed.well_formed db' = true.
Proof.
  intros Hin Hwf Hrun.
  unfold WellFormed.well_formed in *.
  apply andb_prop in Hwf as [Hkeys Hfk].
  apply andb_true_intro. split;
    [|exact (delete_user_keeps_foreign_keys db u Hin Hfk Hrun)].
  destruct (delete_users_where_tables (fun x => user_id x =? user_id u) db)
    as (pn & pni & pui & ppw & pss & pcs & pru & Htables).
  rewrite Hrun in Htables. injection Htables as ->.
  unfold WellFormed.unique_keys in *. simpl.
  repeat (apply andb_prop in Hkeys as [Hkeys ?]).
  repeat (apply andb_true_intro; split);
    first [ apply distinct_filter; assumption
          | apply distinct_by_map_filter; assumption ].
Qed.

(** X28: the delete of a user is confined to that user: every user,
    session, password, connection, note, user image and role assignment of
    another user, and every image of a note of another user, is still in the
    store afterwards, and the roles are untouched. *)
Theorem delete_user_keeps_other_rows (db db' : DB) (u : User) :
  In u (users db) ->
  delete_users_where (fun x => user_id x =? user_id u) db = (Return tt, db') ->
  (forall x, In x (users db) -> user_id x <> user_id u -> In x (users db'))
  /\ (forall r, In r (sessions db) -> session_userId r <> user_id u ->
                In r (sessions db'))
  /\ (forall r, In r (passwords db) -> password_userId r <> user_id u ->
                In r (passwords db'))
  /\ (forall r, In r (connections db) -> connection_userId r <> user_id u ->
                In r (connections db'))
  /\ (forall r, In r (notes db) -> note_ownerId r <> user_id u -> In r (notes db'))
  /\ (forall r, In r (userImages db) -> userImage_userId r <> user_id u ->
                In r (userImages db'))
  /\ (forall r, In r (rolesToUsers db) -> roleUser_userId r <> user_id u ->
                In r (rolesToUsers db'))
  /\ (forall i n, In i (noteImages db) -> In n (notes db) ->
                  noteImage_noteId i = note_id n ->
                  Integrity.distinct (map note_id (notes db)) = true ->
                  note_ownerId n <> user_id u -> In i (noteImages db'))
  /\ roles db' = roles db.
Proof.
  intros Hin Hrun.
  destruct (delete_users_where_rows db u Hin)
    as (d & Hrun' & Hu & Hs & Hp & Hc & Hn & Hui & Hru & Hni & Hroles).
  rewrite Hrun in Hrun'. injection Hrun' as <-.
  repeat split; try (intros r Hr Hne; first
    [ apply Hu | apply Hs | apply Hp | apply Hc | apply Hn | apply Hui
    | apply Hru ]; now split); try exact Hroles.
  intros i n Hi Hnin Href Hpk Hown. apply Hni. split; [exact Hi|].
  intros m Hm Hmown Hmid.
  assert (m = n) by (eapply distinct_key_inj; eauto; congruence).
  subst m. contradiction.
Qed.

(** *** The change-email handler, further *)

Lemma distinct_NoDup (l : list string) :
  Integrity.distinct l = true <-> NoDup l.
Proof.
  induction l as [|a l IH]; simpl.
  - split; [constructor|reflexivity].
  - rewrite andb_true_iff, negb_true_iff, IH. split.
    + intros [Ha Hd]. constructor; [|exact Hd].
      intros Hin.
      assert (existsb (String.eqb a) l = true) as Hc
        by (apply existsb_exists; exists a; split; [exact Hin|apply String.eqb_refl]).
      congruence.
    + intros Hnd. inversion Hnd as [|? ? Hnot Hd]; subst. split; [|exact Hd].
      apply not_true_is_false. intros Hex.
      apply existsb_exists in Hex as (y & Hy & Heq).
      apply String.eqb_eq in Heq. now subst y.
Qed.

Lemma filter_length_tail_le {A} (p : A -> bool) (a : A) (l : list A) :
  (length (filter p l) <= length (filter p (a :: l)))%nat.
Proof. simpl. destruct (p a); simpl; lia. Qed.

(** Setting one email on some rows keeps the emails distinct as long as
    the new email ends up on one row at most. *)
Lemma set_email_keeps_distinct (email : string) (where_ : User -> bool)
    (l : list User) :
  NoDup (map user_email l) ->
  Nat.le
    (length (filter (fun u =>
               user_email (if where_ u then set_user_email email u else u) =? email)
             l)) 1 ->
  NoDup (map (fun u => user_email (if where_ u then set_user_email email u else u)) l).
Proof.
  induction l as [|a l IH]; simpl; [constructor|].
  intros Hnd Hcount. inversion Hnd as [|? ? Hnot Hd]; subst.
  constructor.
  - intros Hin. apply in_map_iff in Hin as (b & Heq & Hb).
    destruct (where_ a) eqn:Hwa; simpl in *.
    + rewrite String.eqb_refl in Hcount. simpl in Hcount.
      assert (In b (filter (fun u =>
                user_email (if where_ u then set_user_email email u else u) =? email) l))
        as Hbin.
      { apply filter_In. split; [exact Hb|]. now apply String.eqb_eq. }
      destruct (filter _ l); [contradiction|simpl in Hcount; lia].
    + destruct (where_ b) eqn:Hwb; simpl in *.
      * subst email. rewrite String.eqb_refl in Hcount. simpl in Hcount.
        assert (In b (filter (fun u =>
                  user_email (if where_ u then set_user_email (user_email a) u else u)
                  =? user_email a) l)) as Hbin.
        { apply filter_In. split; [exact Hb|]. rewrite Hwb. simpl.
          apply String.eqb_refl. }
        destruct (filter _ l); [contradiction|simpl in Hcount; lia].
      * apply Hnot. rewrite <- Heq. now apply in_map.
  - apply IH; [exact Hd|].
    etransitivity; [apply (filter_length_tail_le _ a)|exact Hcount].
Qed.

Lemma map_no_match {A} (f : A -> A) (p : A -> bool) (l : list A) :
  existsb p l = false -> map (fun x => if p x then f x else x) l = l.
Proof.
  induction l as [|a l IH]; simpl; [reflexivity|].
  intros H. apply orb_false_elim in H as [-> H]. now rewrite IH.
Qed.

(** The update statement keeps the emails of the user table distinct. *)
Lemma update_users_set_email_keeps_distinct (email : string)
    (where_ : User -> bool) (db : DB) :
  Integrity.distinct (map user_email (users db)) = true ->
  Integrity.distinct
    (map user_email (users (snd (update_users_set_email email where_ db)))) = true.
Proof.
  intros Hd. unfold update_users_set_email.
  destruct (existsb where_ (users db)) eqn:Hex; simpl.
  - destruct (Nat.ltb 1 _) eqn:Hcount; simpl; [exact Hd|].
    apply Nat.ltb_ge in Hcount. rewrite filter_map_length in Hcount.
    rewrite map_map. apply distinct_NoDup.
    apply set_email_keeps_distinct; [now apply distinct_NoDup|exact Hcount].
  - rewrite map_no_match by exact Hex. exact Hd.
Qed.

Section ChangeEmailFurther.

Variable requireRecentVerification : Request -> option Thrown.
Variable getSession : option string -> CookieSession.
Variable destroySession : CookieSession -> string.
Variable newEmailAddressSessionKey : string.
Variable submission_reply : Submission -> list string -> string.
Variable redirectWithToast : string -> Toast -> ResponseInit -> Response.

Local Abbreviation handle :=
  (handleVerification requireRecentVerification getSession destroySession
     newEmailAddressSessionKey submission_reply redirectWithToast).

(** X29: the change-email handler keeps the emails of the user table
    unique and changes no other column of any user, whatever its outcome:
    ids, usernames, names and timestamps are as before, row by row. *)
Theorem change_email_keeps_emails_unique
    (request : Request) (submission : Submission) (w : World) :
  Integrity.distinct (map user_email (users (w_db w))) = true ->
  Integrity.distinct
    (map user_email (users (w_db (snd (handle request submission w))))) = true
  /\ map user_id (users (w_db (snd (handle request submission w))))
     = map user_id (users (w_db w))
  /\ map user_username (users (w_db (snd (handle request submission w))))
     = map user_username (users (w_db w)).
Proof.
  intros Hd. destruct w as [db out]. unfold handleVerification. simpl in Hd.
  destruct (requireRecentVerification request) as [e|]; [now repeat split|].
  destruct (submission_status submission); [|now repeat split].
  destruct (cookie_get _ newEmailAddressSessionKey) as [newEmail|];
    [|now repeat split].
  destruct (Js.truthy (Some newEmail)) eqn:Ht; [|now repeat split].
  unfold bind, gets, invariant, ret, throw, on_db, sendEmail, modify. simpl.
  destruct (findFirst _ db.(users)) as [old|] eqn:Hold; [|now repeat split].
  simpl.
  pose proof (update_users_set_email_keeps_distinct newEmail
                (fun u => user_id u =? submission_target submission) db Hd) as Hkeep.
  unfold update_users_set_email in *. simpl in *.
  match goal with
  | |- context [if ?c then _ else _] => destruct c eqn:Hclash
  end; simpl in *; [now repeat split|].
  destruct (find_filter_head _ _ Hold) as (rest & Hfilter).
  rewrite Hfilter. simpl.
  split; [exact Hkeep|].
  rewrite !map_map. split; apply map_ext; intros x;
    destruct (user_id x =? submission_target submission); reflexivity.
Qed.

(** X30: when the pending new email already belongs to another user, the
    handler throws the constraint error of the update: the target keeps its
    email, nothing else is written, and no notice is sent. *)
Theorem change_email_refused_when_taken
    (request : Request) (submission : Submission) (w : World)
    (newEmail : string) (old other : User) :
  requireRecentVerification request = None ->
  submission_status submission = StatusSuccess ->
  cookie_get (getSession (req_cookie request)) newEmailAddressSessionKey
  = Some newEmail ->
  newEmail <> "" ->
  In old (users (w_db w)) -> user_id old = submission_target submission ->
  In other (users (w_db w)) -> user_id other <> submission_target submission ->
  user_email other = newEmail ->
  handle request submission w
  = (Throw (ConstraintError "UNIQUE constraint failed: user.email"), w).
Proof.
  intros Hguard Hstatus Hcookie Hne Hold Holdid Hother Hotherid Htaken.
  apply truthy_some in Hne.
  destruct w as [db out]. unfold handleVerification. simpl in *.
  rewrite Hguard, Hstatus, Hcookie. cbv iota beta. rewrite Hne.
  unfold bind, gets, invariant, ret, throw, on_db, sendEmail, modify. simpl.
  destruct (findFirst _ db.(users)) as [found|] eqn:Hfound.
  2:{ pose proof (find_none _ _ Hfound old Hold) as H. simpl in H.
      rewrite Holdid, String.eqb_refl in H. discriminate. }
  simpl. unfold update_users_set_email. simpl.
  assert (existsb (fun u => user_id u =? submission_target submission) (users db)
          = true) as ->.
  { apply existsb_exists. exists old. split; [exact Hold|].
    now apply String.eqb_eq. }
  simpl.
  set (upd := map _ (users db)).
  assert (Nat.ltb 1 (length (filter (fun u => user_email u =? newEmail) upd)) = true)
    as ->; [|reflexivity].
  apply Nat.ltb_lt.
  assert (In (set_user_email newEmail old) (filter (fun u => user_email u =? newEmail) upd))
    as H1.
  { apply filter_In. split; [|simpl; apply String.eqb_refl].
    unfold upd. apply in_map_iff. exists old. split; [|exact Hold].
    now rewrite Holdid, String.eqb_refl. }
  assert (In other (filter (fun u => user_email u =? newEmail) upd)) as H2.
  { apply filter_In. split; [|now apply String.eqb_eq].
    unfold upd. apply in_map_iff. exists other. split; [|exact Hother].
    apply String.eqb_neq in Hotherid. now rewrite Hotherid. }
  assert (set_user_email newEmail old <> other) as Hdiff.
  { intros Heq. apply Hotherid. rewrite <- Heq. exact Holdid. }
  destruct (filter _ upd) as [|a [|b r]]; simpl in *; [contradiction| |lia].
  destruct H1 as [H1|[]], H2 as [H2|[]]. congruence.
Qed.

End ChangeEmailFurther.

(* ===================================================================== *)
(** ** The further properties at concrete stores *)
(* ===================================================================== *)

Example two_users_well_formed : WellFormed.well_formed Fixture.two_users = true.
Proof. reflexivity. Qed.

Lemma getUserId_relation_not_inferred_witness :
  getUserId Fixture.getSession Fixture.destroySession 4999
    (Fixture.request_with "s2") Fixture.two_users
  = (Throw (RelationError "sessions.user"), Fixture.two_users).
Proof.
  pose proof (@getUserId_relation_not_inferred Fixture.getSession
                Fixture.destroySession 4999 (Fixture.request_with "s2")
                Fixture.two_users "s2") as H.
  specialize (H ltac:(reflexivity) ltac:(discriminate)).
  exact (proj1 H).
Defined.

Lemma requireUserId_unauthenticated_witness :
  requireUserId Fixture.getSession Fixture.destroySession Sample.newURL
    Sample.URLSearchParams_toString 0 Fixture.request_without None Fixture.two_users
  = (Throw (ThrownResponse
       (mkResponse 302 (Some "/login?redirectTo=/me?tab=notes") [] "")),
     Fixture.two_users).
Proof.
  pose proof (@requireUserId_unauthenticated Fixture.getSession
                Fixture.destroySession Sample.newURL Sample.URLSearchParams_toString
                0 Fixture.request_without None Fixture.two_users) as H.
  specialize (H ltac:(reflexivity)).
  exact (proj1 H).
Defined.

Lemma note_image_loader_serves_each_image_witness :
  exists r,
    NoteImageResource.loader (Some "i1") Fixture.two_users
    = (Return r, Fixture.two_users)
    /\ resp_body r = "x".
Proof.
  pose proof (@note_image_loader_serves_each_image Fixture.two_users
                (mkNoteImage "i1" None "image/png" "x" 0 0 "n1")) as H.
  specialize (H ltac:(reflexivity) ltac:(simpl; auto) ltac:(discriminate)).
  destruct H as (r & Hrun & Hbody & _). exists r. split; assumption.
Defined.

Lemma reset_handler_username_resolves_witness :
  exists u',
    fst (resetUserPassword Fixture.hash "alice" "new-pw" Fixture.two_users)
    = Return u'
    /\ user_username u' = "alice".
Proof.
  pose proof (@reset_handler_username_resolves Fixture.getSession
                Sample.commitSession Sample.resetPasswordUsernameSessionKey
                Sample.reply Fixture.hash
                (mkSubmission StatusSuccess "alice@example.com")
                Fixture.two_users
                (redirect "/reset-password"
                   (mkInit None (Some
                      [("set-cookie", "resetPasswordUsername=alice")])))
                "new-pw") as H.
  specialize (H ltac:(reflexivity) ltac:(reflexivity)).
  destruct H as (u & u' & Hin & Hr & Hrun & Hname).
  assert (user_username u = "alice") as Hu.
  { simpl in Hin. destruct Hin as [<-|[<-|[]]]; [reflexivity|discriminate Hr]. }
  exists u'. rewrite Hu in *. split; assumption.
Defined.

Lemma signup_keeps_store_well_formed_witness :
  WellFormed.well_formed
    (snd (signup Fixture.toLowerCase_ascii Fixture.hash (Fixture.clock_at 0) "u9" "s9" "C@D.com" "Carol" "pw" None
            Fixture.two_users)) = true.
Proof.
  apply (@signup_keeps_store_well_formed Fixture.toLowerCase_ascii Fixture.hash
           (Fixture.clock_at 0) "u9" "s9" "C@D.com"
           "Carol" "pw" None Fixture.two_users).
  reflexivity.
Defined.

Lemma signup_rejects_taken_email_or_username_witness :
  exists c,
    signup Fixture.toLowerCase_ascii Fixture.hash (Fixture.clock_at 0) "u9" "s9" "ALICE@Example.com" "carol" "pw" None
      Fixture.two_users
    = (Throw (ConstraintError c), Fixture.two_users).
Proof.
  apply (@signup_rejects_taken_email_or_username Fixture.toLowerCase_ascii
           Fixture.hash (Fixture.clock_at 0) "u9" "s9"
           "ALICE@Example.com" "carol" "pw" None Fixture.two_users Fixture.alice).
  - simpl. auto.
  - left. reflexivity.
Defined.

Lemma signup_twice_same_email_fails_witness :
  exists c,
    signup Fixture.toLowerCase_ascii Fixture.hash (Fixture.clock_at 1) "u8" "s8" "c@d.COM" "dave" "pw2" None
      (snd (signup Fixture.toLowerCase_ascii Fixture.hash (Fixture.clock_at 0) "u9" "s9" "C@D.com" "Carol" "pw" None
              Fixture.two_users))
    = (Throw (ConstraintError c),
       snd (signup Fixture.toLowerCase_ascii Fixture.hash (Fixture.clock_at 0) "u9" "s9" "C@D.com" "Carol" "pw" None
              Fixture.two_users)).
Proof.
  apply (@signup_twice_same_email_fails Fixture.toLowerCase_ascii Fixture.hash
           (Fixture.clock_at 0) (Fixture.clock_at 1) "u9" "s9" "u8" "s8"
           "C@D.com" "Carol" "pw" "c@d.COM" "dave" "pw2" None None
           Fixture.two_users
           (snd (signup Fixture.toLowerCase_ascii Fixture.hash (Fixture.clock_at 0) "u9" "s9" "C@D.com" "Carol" "pw" None
                   Fixture.two_users))
           (mkSessionInfo "s9" 2592000000)).
  - reflexivity.
  - reflexivity.
Defined.

Lemma signup_succeeds_witness :
  exists db',
    signup Fixture.toLowerCase_ascii Fixture.hash (Fixture.clock_at 0) "u9" "s9" "C@D.com" "Carol" "pw" None Fixture.two_users
    = (Return (mkSessionInfo "s9"
                 (stored_timestamp (0 + SESSION_EXPIRATION_TIME))), db').
Proof.
  apply (@signup_succeeds Fixture.toLowerCase_ascii Fixture.hash (Fixture.clock_at 0)
           "u9" "s9" "C@D.com" "Carol" "pw" None
           Fixture.two_users Fixture.role_user); reflexivity.
Defined.

Lemma signupWithConnection_all_or_nothing_witness :
  snd (signupWithConnection Fixture.toLowerCase_ascii Fixture.downloadFile_ok
            (Fixture.clock_at 0) "u9" "c9" "i9" "s9"
         "C@D.com" "Carol" None "42" "github" None Fixture.two_users)
  = Fixture.two_users.
Proof.
  apply (@signupWithConnection_all_or_nothing Fixture.toLowerCase_ascii
           Fixture.downloadFile_ok (Fixture.clock_at 0) "u9" "c9"
           "i9" "s9" "C@D.com" "Carol" None "42" "github" None Fixture.two_users
           (snd (signupWithConnection Fixture.toLowerCase_ascii Fixture.downloadFile_ok
            (Fixture.clock_at 0) "u9" "c9" "i9" "s9"
                   "C@D.com" "Carol" None "42" "github" None Fixture.two_users))
           (ConstraintError
              "UNIQUE constraint failed: connection.provider_name, connection.provider_id")).
  reflexivity.
Defined.

Lemma signupWithConnection_rejects_bound_identity_witness :
  exists e,
    signupWithConnection Fixture.toLowerCase_ascii Fixture.downloadFile_ok
            (Fixture.clock_at 0) "u9" "c9" "i9" "s9"
      "C@D.com" "Carol" None "42" "github" None Fixture.two_users
    = (Throw e, Fixture.two_users).
Proof.
  apply (@signupWithConnection_rejects_bound_identity Fixture.toLowerCase_ascii
           Fixture.downloadFile_ok (Fixture.clock_at 0)
           "u9" "c9" "i9" "s9" "C@D.com" "Carol" None "42" "github" None
           Fixture.two_users (mkConnection "c1" "github" "42" 0 0 "u1")).
  - simpl. auto.
  - reflexivity.
  - reflexivity.
Defined.

Lemma signupWithConnection_creates_account_witness :
  connections
    (snd (signupWithConnection Fixture.toLowerCase_ascii Fixture.downloadFile_ok
            (Fixture.clock_at 0) "u9" "c9" "i9" "s9"
            "C@D.com" "Carol" None "7" "github" (Some "https://example.com/a.png")
            Fixture.two_users))
  = connections Fixture.two_users ++ [mkConnection "c9" "github" "7" 0 0 "u9"].
Proof.
  pose proof (@signupWithConnection_creates_account Fixture.toLowerCase_ascii
           Fixture.downloadFile_ok (Fixture.clock_at 0)
                "u9" "c9" "i9" "s9" "C@D.com" "Carol" None "7" "github"
                (Some "https://example.com/a.png") Fixture.two_users
                (snd (signupWithConnection Fixture.toLowerCase_ascii Fixture.downloadFile_ok
            (Fixture.clock_at 0) "u9" "c9" "i9"
                        "s9" "C@D.com" "Carol" None "7" "github"
                        (Some "https://example.com/a.png") Fixture.two_users))
                (mkSessionInfo "s9" 2592000000)) as H.
  specialize (H ltac:(reflexivity)).
  destruct H as (role & _ & _ & _ & _ & Hc & _). exact Hc.
Defined.

Lemma signupWithConnection_keeps_store_well_formed_witness :
  WellFormed.well_formed
    (snd (signupWithConnection Fixture.toLowerCase_ascii Fixture.downloadFile_ok
            (Fixture.clock_at 0) "u9" "c9" "i9" "s9"
            "C@D.com" "Carol" None "7" "github" (Some "https://example.com/a.png")
            Fixture.two_users)) = true.
Proof.
  apply (@signupWithConnection_keeps_store_well_formed Fixture.toLowerCase_ascii
           Fixture.downloadFile_ok (Fixture.clock_at 0)
           "u9" "c9" "i9" "s9" "C@D.com" "Carol" None "7" "github"
           (Some "https://example.com/a.png") Fixture.two_users).
  reflexivity.
Defined.

Lemma resetUserPassword_updates_in_place_witness :
  exists db',
    resetUserPassword Fixture.hash "bob" "new-pw" Fixture.two_users
    = (Return Fixture.bob, db')
    /\ length (passwords db') = 2%nat.
Proof.
  pose proof (@resetUserPassword_updates_in_place Fixture.hash "bob" "new-pw"
                Fixture.two_users Fixture.bob) as H.
  specialize (H ltac:(reflexivity)).
  destruct H as (db' & Hrun & Hlen & _). exists db'. split; assumption.
Defined.

Lemma logout_removes_only_that_session_witness :
  In (mkSession "s2" 5000 0 0 "u2")
     (sessions (snd (logout Fixture.getSession Fixture.destroySession
                       Fixture.safeRedirect Fixture.combineHeaders false
                       (Fixture.request_with "s1") None None Fixture.two_users))).
Proof.
  pose proof (@logout_removes_only_that_session Fixture.getSession
                Fixture.destroySession Fixture.safeRedirect Fixture.combineHeaders
                false (Fixture.request_with "s1") None None Fixture.two_users "s1")
    as H.
  specialize (H ltac:(reflexivity) ltac:(discriminate)).
  destruct H as (_ & _ & _ & _ & _ & _ & _ & _ & Hkeep & _).
  apply Hkeep; [simpl; auto|discriminate].
Defined.

Lemma delete_user_keeps_store_well_formed_witness :
  WellFormed.well_formed
    (snd (delete_users_where (fun x => user_id x =? "u1") Fixture.two_users)) = true.
Proof.
  apply (@delete_user_keeps_store_well_formed Fixture.two_users
           (snd (delete_users_where (fun x => user_id x =? "u1") Fixture.two_users))
           Fixture.alice).
  - simpl. auto.
  - reflexivity.
  - reflexivity.
Defined.

Lemma delete_user_keeps_other_rows_witness :
  In Fixture.bob
     (users (snd (delete_users_where (fun x => user_id x =? "u1") Fixture.two_users))).
Proof.
  pose proof (@delete_user_keeps_other_rows Fixture.two_users
                (snd (delete_users_where (fun x => user_id x =? "u1")
                        Fixture.two_users))
                Fixture.alice) as H.
  specialize (H ltac:(simpl; auto) ltac:(reflexivity)).
  destruct H as (Hu & _). apply Hu; [simpl; auto|discriminate].
Defined.

Lemma change_email_keeps_emails_unique_witness :
  Integrity.distinct
    (map user_email
       (users (w_db (snd
          (handleVerification (fun _ => None) Sample.verifySession
             Fixture.destroySession Sample.newEmailAddressSessionKey
             (fun _ errors => String.concat "; " errors)
             (fun url toast init => redirect url init)
             (Fixture.request_with "new@example.com")
             (mkSubmission StatusSuccess "u1")
             (mkWorld Fixture.two_users [])))))) = true.
Proof.
  pose proof (@change_email_keeps_emails_unique (fun _ => None)
                Sample.verifySession Fixture.destroySession
                Sample.newEmailAddressSessionKey
                (fun _ errors => String.concat "; " errors)
                (fun url toast init => redirect url init)
                (Fixture.request_with "new@example.com")
                (mkSubmission StatusSuccess "u1")
                (mkWorld Fixture.two_users [])) as H.
  specialize (H ltac:(reflexivity)).
  exact (proj1 H).
Defined.

Lemma change_email_refused_when_taken_witness :
  handleVerification (fun _ => None) Sample.verifySession
    Fixture.destroySession Sample.newEmailAddressSessionKey
    (fun _ errors => String.concat "; " errors)
    (fun url toast init => redirect url init)
    (Fixture.request_with "bob@example.com")
    (mkSubmission StatusSuccess "u1")
    (mkWorld Fixture.two_users [])
  = (Throw (ConstraintError "UNIQUE constraint failed: user.email"),
     mkWorld Fixture.two_users []).
Proof.
  apply (@change_email_refused_when_taken (fun _ => None) Sample.verifySession
           Fixture.destroySession Sample.newEmailAddressSessionKey
           (fun _ errors => String.concat "; " errors)
           (fun url toast init => redirect url init)
           (Fixture.request_with "bob@example.com")
           (mkSubmission StatusSuccess "u1")
           (mkWorld Fixture.two_users [])
           "bob@example.com" Fixture.alice Fixture.bob).
  - reflexivity.
  - reflexivity.
  - reflexivity.
  - discriminate.
  - simpl. auto.
  - reflexivity.
  - simpl. auto.
  - discriminate.
  - reflexivity.
Defined.

Example note_image_loader_headers :
  fst (NoteImageResource.loader (Some "i1") Fixture.two_users)
  = Return (mkResponse 200 None
      [("Content-Type", "image/png"); ("Content-Length", "1");
       ("Content-Disposition",
        ("inline; filename=" ++ NoteImageResource.dquote ++ "i1"
         ++ NoteImageResource.dquote)%string);
       ("Cache-Control", "public, max-age=31536000, immutable")] "x").
Proof. reflexivity. Qed.

Example requireAnonymous_signed_in :
  requireAnonymous Fixture.getSession Fixture.destroySession 0
    (Fixture.request_with "s1") Fixture.two_users
  = (Throw (RelationError "sessions.user"), Fixture.two_users).
Proof. reflexivity. Qed.

Example requireAnonymous_signed_out :
  requireAnonymous Fixture.getSession Fixture.destroySession 0
    Fixture.request_without Fixture.two_users
  = (Return tt, Fixture.two_users).
Proof. reflexivity. Qed.
